(** * Bundle cart transform: a shallow embedding of
      [extensions/bundle-cart-transform/src/cart_transform_run.js]

    The transform is a pure JavaScript function over a duck-typed cart
    snapshot.  The embedding keeps the values untyped, as the code sees them:

    - a JavaScript string is a sequence of UTF-16 code units ([jsstring]);
    - a JavaScript number is an IEEE-754 binary64 value ([spec_float]);
    - an object is an ordered list of own properties;
    - an expression that can throw lives in the [completion] monad, with
      [TypeError] for a property read on [undefined]/[null] or an iteration
      over a non-iterable, and [SyntaxError] for [JSON.parse].

    [JSON.parse] is a built-in of the language, not code of the repository;
    it is embedded here from the JSON grammar of ECMA-262 (sec. 25.5.1), as a
    recursive-descent parser whose fuel is proved sufficient.  The limits
    of an engine (stack depth, string length) are not part of the model. *)

From Stdlib Require Import List ZArith NArith Bool Lia String Ascii.
From Stdlib Require Import Floats.SpecFloat.
Import ListNotations.

Local Open Scope N_scope.

(* ================================================================= *)
(** ** Strings *)

(** A string value: its UTF-16 code units. *)
Definition jsstring := list N.

(** The code units of an ASCII literal. *)
Definition lit (s : string) : jsstring :=
  List.map N_of_ascii (list_ascii_of_string s).

Fixpoint str_eqb (a b : jsstring) : bool :=
  match a, b with
  | [], [] => true
  | x :: a', y :: b' => (x =? y) && str_eqb a' b'
  | _, _ => false
  end.

(** [String.prototype.startsWith(p)]. *)
Fixpoint startsWith (p s : jsstring) : bool :=
  match p, s with
  | [], _ => true
  | x :: p', y :: s' => (x =? y) && startsWith p' s'
  | _ :: _, [] => false
  end.

(** [String.prototype.split(sep)] for a one-unit separator: the pieces
    between the separators, the empty string giving one empty piece. *)
Fixpoint split (sep : N) (s : jsstring) : list jsstring :=
  match s with
  | [] => [[]]
  | c :: r =>
      if c =? sep then [] :: split sep r
      else match split sep r with
           | [] => [[c]]
           | piece :: pieces => (c :: piece) :: pieces
           end
  end.

(** WhiteSpace and LineTerminator code units, the ones [trim] strips. *)
Definition is_space (c : N) : bool :=
  ((9 <=? c) && (c <=? 13)) || (c =? 32) || (c =? 160) || (c =? 5760)
  || ((8192 <=? c) && (c <=? 8202)) || (c =? 8232) || (c =? 8233)
  || (c =? 8239) || (c =? 8287) || (c =? 12288) || (c =? 65279).

Fixpoint trimStart (s : jsstring) : jsstring :=
  match s with
  | c :: r => if is_space c then trimStart r else s
  | [] => []
  end.

(** [String.prototype.trim()]. *)
Definition trim (s : jsstring) : jsstring :=
  rev (trimStart (rev (trimStart s))).

(** The string iterator: one string per code point, a surrogate pair
    staying together. *)
Definition is_high_surrogate (c : N) : bool := (55296 <=? c) && (c <=? 56319).
Definition is_low_surrogate (c : N) : bool := (56320 <=? c) && (c <=? 57343).

Fixpoint code_points (s : jsstring) : list jsstring :=
  match s with
  | [] => []
  | c :: r =>
      match r with
      | d :: r' =>
          if is_high_surrogate c && is_low_surrogate d
          then [c; d] :: code_points r'
          else [c] :: code_points r
      | [] => [[c]]
      end
  end.

(** [Array.prototype.join(sep)] on strings, for a one-unit separator. *)
Fixpoint join (sep : N) (pieces : list jsstring) : jsstring :=
  match pieces with
  | [] => []
  | [piece] => piece
  | piece :: rest => piece ++ sep :: join sep rest
  end.

(** Code units are 16-bit. *)
Definition well_formed (s : jsstring) : bool :=
  forallb (fun c => c <? 65536) s.

(* ================================================================= *)
(** ** Numbers *)

(** Binary64, through the Standard Library's specification of floats. *)
Definition jsnumber := spec_float.

Definition prec : Z := 53.
Definition emax : Z := 1024.

Definition num_of_Z (z : Z) : jsnumber := binary_normalize prec emax z 0 false.

(** The Number value of the decimal [(-1)^neg * m * 10^e], rounded to
    nearest, ties to even. *)
Definition num_of_decimal (neg : bool) (m : N) (e : Z) : jsnumber :=
  match m with
  | N0 => S754_zero neg
  | Npos p =>
      if (0 <=? e)%Z
      then binary_round prec emax neg (p * Z.to_pos (10 ^ e)) 0
      else
        let '(q, e', l) :=
          SFdiv_core_binary prec emax (Zpos p) 0 (10 ^ (- e))%Z 0 in
        binary_round_aux prec emax neg q e' l
  end.

(** A number is falsy when it is a zero or NaN. *)
Definition num_truthy (x : jsnumber) : bool :=
  match x with
  | S754_zero _ | S754_nan => false
  | S754_infinity _ | S754_finite _ _ _ => true
  end.

(* ================================================================= *)
(** ** Values *)

#[local] Unset Elimination Schemes.
Inductive JsVal : Type :=
| JUndefined
| JNull
| JBool (b : bool)
| JNum (x : jsnumber)
| JStr (s : jsstring)
| JArr (items : list JsVal)
| JObj (props : list (jsstring * JsVal)).
#[local] Set Elimination Schemes.

(** ToBoolean, as used by [!v], [a || b] and [filter(Boolean)]. *)
Definition truthy (v : JsVal) : bool :=
  match v with
  | JUndefined | JNull => false
  | JBool b => b
  | JNum x => num_truthy x
  | JStr s => match s with [] => false | _ :: _ => true end
  | JArr _ | JObj _ => true
  end.

Definition nullish (v : JsVal) : bool :=
  match v with
  | JUndefined | JNull => true
  | _ => false
  end.

(** [typeof v === "string"]. *)
Definition is_string (v : JsVal) : bool :=
  match v with JStr _ => true | _ => false end.

(** [v === "literal"] and [v !== "literal"]. *)
Definition strict_eq_str (v : JsVal) (s : jsstring) : bool :=
  match v with JStr t => str_eqb t s | _ => false end.

(** [a || b] and [a ?? b] on already evaluated operands. *)
Definition js_or (a b : JsVal) : JsVal := if truthy a then a else b.
Definition js_coalesce (a b : JsVal) : JsVal := if nullish a then b else a.

(** Own property lookup; a missing property reads as [undefined]. *)
Fixpoint lookup (k : jsstring) (props : list (jsstring * JsVal)) : JsVal :=
  match props with
  | [] => JUndefined
  | (k', v) :: rest => if str_eqb k' k then v else lookup k rest
  end.

(** The value of [v.k] for a [v] that is neither [undefined] nor [null].
    The program only reads property names that no built-in prototype
    defines ([cart], [lines], [merchandise], [bundleRefs], [id], ...), so a
    primitive or an array reads as [undefined]. *)
Definition prop (v : JsVal) (k : jsstring) : JsVal :=
  match v with
  | JObj props => lookup k props
  | _ => JUndefined
  end.

(** [v?.k]. *)
Definition opt_get (v : JsVal) (k : jsstring) : JsVal :=
  if nullish v then JUndefined else prop v k.

(* ================================================================= *)
(** ** Completions: a value or a thrown error *)

Inductive JsError : Type := TypeError | SyntaxError.

Inductive completion (A : Type) : Type :=
| Ok (a : A)
| Throw (e : JsError).
Arguments Ok {A} a.
Arguments Throw {A} e.

Definition bind {A B} (c : completion A) (k : A -> completion B)
  : completion B :=
  match c with
  | Ok a => k a
  | Throw e => Throw e
  end.

Notation "x <- c ;; k" := (bind c (fun x => k))
  (at level 61, c at next level, right associativity).

(** [try { body } catch (_) { handler }]. *)
Definition try_catch {A} (body : completion A) (handler : JsError -> completion A)
  : completion A :=
  match body with
  | Ok a => Ok a
  | Throw e => handler e
  end.

(** [v.k]: a [TypeError] on [undefined] and [null]. *)
Definition get (v : JsVal) (k : jsstring) : completion JsVal :=
  if nullish v then Throw TypeError else Ok (prop v k).

(** The elements a [for (... of v)] visits. *)
Definition iterate (v : JsVal) : completion (list JsVal) :=
  match v with
  | JArr items => Ok items
  | JStr s => Ok (List.map JStr (code_points s))
  | _ => Throw TypeError
  end.

Fixpoint mapM {A B} (f : A -> completion B) (l : list A)
  : completion (list B) :=
  match l with
  | [] => Ok []
  | a :: l' => b <- f a ;; bs <- mapM f l' ;; Ok (b :: bs)
  end.

(* ================================================================= *)
(** ** [JSON.parse] *)

Module JSON.

Definition is_ws (c : N) : bool :=
  (c =? 9) || (c =? 10) || (c =? 13) || (c =? 32).

Fixpoint skip_ws (s : jsstring) : jsstring :=
  match s with
  | c :: r => if is_ws c then skip_ws r else s
  | [] => []
  end.

Definition is_digit (c : N) : bool := (48 <=? c) && (c <=? 57).

Definition hex_digit (c : N) : option N :=
  if is_digit c then Some (c - 48)
  else if (65 <=? c) && (c <=? 70) then Some (c - 55)
  else if (97 <=? c) && (c <=? 102) then Some (c - 87)
  else None.

(** The code unit a one-letter escape stands for. *)
Definition escape_unit (c : N) : option N :=
  if c =? 34 then Some 34          (* quotation mark *)
  else if c =? 92 then Some 92     (* reverse solidus *)
  else if c =? 47 then Some 47     (* solidus *)
  else if c =? 98 then Some 8      (* b: backspace *)
  else if c =? 102 then Some 12    (* f: form feed *)
  else if c =? 110 then Some 10    (* n: line feed *)
  else if c =? 114 then Some 13    (* r: carriage return *)
  else if c =? 116 then Some 9     (* t: tab *)
  else None.

(** The characters of a JSON string after its opening quote, and what
    follows the closing quote. *)
Fixpoint parse_chars (s : jsstring) : option (jsstring * jsstring) :=
  match s with
  | [] => None
  | c :: r =>
      if c =? 34 then Some ([], r)
      else if c =? 92 then
        match r with
        | [] => None
        | e :: r1 =>
            if e =? 117 then
              match r1 with
              | h1 :: h2 :: h3 :: h4 :: r2 =>
                  match hex_digit h1, hex_digit h2, hex_digit h3, hex_digit h4,
                        parse_chars r2 with
                  | Some a, Some b, Some c', Some d, Some (t, rest) =>
                      Some ((((a * 16 + b) * 16 + c') * 16 + d) :: t, rest)
                  | _, _, _, _, _ => None
                  end
              | _ => None
              end
            else
              match escape_unit e, parse_chars r1 with
              | Some u, Some (t, rest) => Some (u :: t, rest)
              | _, _ => None
              end
        end
      else if c <? 32 then None
      else
        match parse_chars r with
        | Some (t, rest) => Some (c :: t, rest)
        | None => None
        end
  end.

Fixpoint take_digits (s : jsstring) : list N * jsstring :=
  match s with
  | c :: r =>
      if is_digit c
      then let '(ds, rest) := take_digits r in ((c - 48) :: ds, rest)
      else ([], s)
  | [] => ([], [])
  end.

Definition digits_value (ds : list N) : N :=
  fold_left (fun acc d => acc * 10 + d) ds 0.

(** The integer part: a lone [0], or digits not starting with [0]. *)
Definition parse_int (s : jsstring) : option (list N * jsstring) :=
  match s with
  | c :: r =>
      if c =? 48 then Some ([0], r)
      else if is_digit c then Some (take_digits s)
      else None
  | [] => None
  end.

Definition parse_frac (s : jsstring) : option (list N * jsstring) :=
  match s with
  | c :: r =>
      if c =? 46 then
        match take_digits r with
        | ([], _) => None
        | (ds, rest) => Some (ds, rest)
        end
      else Some ([], s)
  | [] => Some ([], s)
  end.

Definition parse_exp (s : jsstring) : option (Z * jsstring) :=
  match s with
  | c :: r =>
      if (c =? 101) || (c =? 69) then
        let '(neg, r1) :=
          match r with
          | d :: r' =>
              if d =? 45 then (true, r')
              else if d =? 43 then (false, r')
              else (false, r)
          | [] => (false, r)
          end in
        match take_digits r1 with
        | ([], _) => None
        | (ds, rest) =>
            let x := Z.of_N (digits_value ds) in
            Some (if neg then (- x)%Z else x, rest)
        end
      else Some (0%Z, s)
  | [] => Some (0%Z, s)
  end.

Definition parse_number (s : jsstring) : option (jsnumber * jsstring) :=
  let '(neg, s1) :=
    match s with
    | c :: r => if c =? 45 then (true, r) else (false, s)
    | [] => (false, s)
    end in
  match parse_int s1 with
  | None => None
  | Some (ints, s2) =>
      match parse_frac s2 with
      | None => None
      | Some (fracs, s3) =>
          match parse_exp s3 with
          | None => None
          | Some (x, rest) =>
              Some (num_of_decimal neg (digits_value (ints ++ fracs))
                      (x - Z.of_nat (List.length fracs)), rest)
          end
      end
  end.

(** [s] with the word [w] removed from its front. *)
Definition expect (w s : jsstring) : option jsstring :=
  if startsWith w s then Some (skipn (List.length w) s) else None.

(** The integer a property name stands for when it is an array index:
    decimal digits without a leading zero, at most 2^32 - 2. *)
Definition array_index (k : jsstring) : option N :=
  match k with
  | [] => None
  | c :: r =>
      if forallb is_digit k
         && (negb (c =? 48) || match r with [] => true | _ :: _ => false end)
      then
        let i := digits_value (List.map (fun d => d - 48) k) in
        if i <=? 4294967294 then Some i else None
      else None
  end.

Fixpoint has_prop (k : jsstring) (props : list (jsstring * JsVal)) : bool :=
  match props with
  | [] => false
  | (k', _) :: rest => str_eqb k' k || has_prop k rest
  end.

Fixpoint replace_prop (k : jsstring) (v : JsVal)
  (props : list (jsstring * JsVal)) : list (jsstring * JsVal) :=
  match props with
  | [] => []
  | (k', v') :: rest =>
      if str_eqb k' k then (k', v) :: rest
      else (k', v') :: replace_prop k v rest
  end.

(** A new array index goes before the first property that is not an array
    index or is a greater one. *)
Fixpoint insert_index (i : N) (k : jsstring) (v : JsVal)
  (props : list (jsstring * JsVal)) : list (jsstring * JsVal) :=
  match props with
  | [] => [(k, v)]
  | (k', v') :: rest =>
      match array_index k' with
      | Some j =>
          if j <? i then (k', v') :: insert_index i k v rest
          else (k, v) :: props
      | None => (k, v) :: props
      end
  end.

(** Defining a property.  A repeated key keeps its place and takes the new
    value.  The properties of an object are listed as the language lists
    them: the array indices in ascending order, then the other names in
    the order they were first defined. *)
Definition set_prop (k : jsstring) (v : JsVal)
  (props : list (jsstring * JsVal)) : list (jsstring * JsVal) :=
  if has_prop k props then replace_prop k v props
  else
    match array_index k with
    | Some i => insert_index i k v props
    | None => props ++ [(k, v)]
    end.

Inductive presult (A : Type) : Type :=
| PFuel
| PErr
| POk (a : A) (rest : jsstring).
Arguments PFuel {A}.
Arguments PErr {A}.
Arguments POk {A} a rest.

Definition keyword (w : string) (v : JsVal) (s : jsstring) : presult JsVal :=
  match expect (lit w) s with
  | Some rest => POk v rest
  | None => PErr
  end.

Fixpoint parse_value (fuel : nat) (s : jsstring) {struct fuel}
  : presult JsVal :=
  match fuel with
  | O => PFuel
  | S fuel' =>
      match skip_ws s with
      | [] => PErr
      | c :: r =>
          if c =? 110 then keyword "ull" JNull r
          else if c =? 116 then keyword "rue" (JBool true) r
          else if c =? 102 then keyword "alse" (JBool false) r
          else if c =? 34 then
            match parse_chars r with
            | Some (t, rest) => POk (JStr t) rest
            | None => PErr
            end
          else if c =? 91 then
            match skip_ws r with
            | d :: rest =>
                if d =? 93 then POk (JArr []) rest
                else parse_elements fuel' r []
            | [] => PErr
            end
          else if c =? 123 then
            match skip_ws r with
            | d :: rest =>
                if d =? 125 then POk (JObj []) rest
                else parse_members fuel' r []
            | [] => PErr
            end
          else if (c =? 45) || is_digit c then
            match parse_number (c :: r) with
            | Some (x, rest) => POk (JNum x) rest
            | None => PErr
            end
          else PErr
      end
  end

with parse_elements (fuel : nat) (s : jsstring) (acc : list JsVal)
       {struct fuel} : presult JsVal :=
  match fuel with
  | O => PFuel
  | S fuel' =>
      match parse_value fuel' s with
      | POk v rest =>
          match skip_ws rest with
          | d :: rest' =>
              if d =? 44 then parse_elements fuel' rest' (v :: acc)
              else if d =? 93 then POk (JArr (rev (v :: acc))) rest'
              else PErr
          | [] => PErr
          end
      | PErr => PErr
      | PFuel => PFuel
      end
  end

with parse_members (fuel : nat) (s : jsstring)
       (acc : list (jsstring * JsVal)) {struct fuel} : presult JsVal :=
  match fuel with
  | O => PFuel
  | S fuel' =>
      match skip_ws s with
      | q :: r =>
          if q =? 34 then
            match parse_chars r with
            | Some (k, rest) =>
                match skip_ws rest with
                | d :: rest' =>
                    if d =? 58 then
                      match parse_value fuel' rest' with
                      | POk v rest'' =>
                          match skip_ws rest'' with
                          | d' :: r3 =>
                              if d' =? 44
                              then parse_members fuel' r3 (set_prop k v acc)
                              else if d' =? 125
                              then POk (JObj (set_prop k v acc)) r3
                              else PErr
                          | [] => PErr
                          end
                      | PErr => PErr
                      | PFuel => PFuel
                      end
                    else PErr
                | [] => PErr
                end
            | None => PErr
            end
          else PErr
      | [] => PErr
      end
  end.

(** Enough fuel for a text: two units per code unit, and one. *)
Definition fuel_for (s : jsstring) : nat := 2 * List.length s + 1.

(** [JSON.parse(text)]: the value of a text that is one JSON value between
    optional white space, a [SyntaxError] otherwise. *)
Definition parse (text : jsstring) : completion JsVal :=
  match parse_value (fuel_for text) text with
  | POk v rest =>
      match skip_ws rest with
      | [] => Ok v
      | _ :: _ => Throw SyntaxError
      end
  | PErr | PFuel => Throw SyntaxError
  end.


(** *** [JSON.stringify] of strings and of arrays of strings *)

Definition hex_char (n : N) : N := if n <? 10 then 48 + n else 87 + n.

(** The escape of a code unit: a reverse solidus, u, four lowercase
    hexadecimal digits. *)
Definition unicode_escape (c : N) : jsstring :=
  [92; 117; hex_char (c / 4096); hex_char ((c / 256) mod 16);
   hex_char ((c / 16) mod 16); hex_char (c mod 16)].

(** One code point of a quoted string: the short escapes, the escape of a
    control character and of a lone surrogate, anything else as it is. *)
Definition quote_code_point (cp : jsstring) : jsstring :=
  match cp with
  | [c] =>
      if c =? 8 then [92; 98]
      else if c =? 9 then [92; 116]
      else if c =? 10 then [92; 110]
      else if c =? 12 then [92; 102]
      else if c =? 13 then [92; 114]
      else if c =? 34 then [92; 34]
      else if c =? 92 then [92; 92]
      else if (c <? 32) || is_high_surrogate c || is_low_surrogate c
      then unicode_escape c
      else [c]
  | _ => cp
  end.

(** [JSON.stringify(s)] for a string [s] (QuoteJSONString). *)
Definition quote (s : jsstring) : jsstring :=
  34 :: List.concat (List.map quote_code_point (code_points s)) ++ [34].

(** [JSON.stringify(a)] for an array [a] of strings, without indentation. *)
Definition stringify_strings (a : list jsstring) : jsstring :=
  91 :: join 44 (List.map quote a) ++ [93].

End JSON.

(* ================================================================= *)
(** ** The transform *)

Record ExpandedItem : Type := {
  merchandiseId : JsVal;
  quantity : JsVal
}.

Record LineExpand : Type := {
  cartLineId : JsVal;
  expandedCartItems : list ExpandedItem
}.

(** One operation of the result: the object [{lineExpand: {...}}]. *)
Record Operation : Type := {
  lineExpand : LineExpand
}.

Record CartTransformRunResult : Type := {
  operations : list Operation
}.

Definition NO_CHANGES : CartTransformRunResult := {| operations := [] |}.

Definition GID_PREFIX : jsstring := lit "gid://".

(** The callback of [raw.map(...)]:
    [typeof item === "string" ? item : item?.id || item?.gid || null]. *)
Definition item_id (item : JsVal) : JsVal :=
  if is_string item then item
  else js_or (js_or (opt_get item (lit "id")) (opt_get item (lit "gid"))) JNull.

(** The end of [normalizeVariantIds], from [if (Array.isArray(raw))] on. *)
Definition resolve_raw (raw : JsVal) : list JsVal :=
  match raw with
  | JArr items => filter truthy (List.map item_id items)
  | JStr s =>
      if startsWith GID_PREFIX s then [raw]
      else
        List.map JStr
          (filter (startsWith GID_PREFIX) (List.map trim (split 44 s)))
  | _ => []
  end.

Definition normalizeVariantIds (mf : JsVal) : completion (list JsVal) :=
  if negb (truthy mf) then Ok []
  else
    jsonValue <- get mf (lit "jsonValue") ;;
    raw <- try_catch
             (if negb (truthy jsonValue) then
                value <- get mf (lit "value") ;;
                match value with
                | JStr text => JSON.parse text
                | _ => Ok jsonValue
                end
              else Ok jsonValue)
             (fun _ => Ok jsonValue) ;;
    Ok (resolve_raw raw).

(** The body of the loop over the lines: [None] where the source says
    [continue], the operation it pushes otherwise. *)
Definition line_step (line : JsVal) : completion (option Operation) :=
  merch <- get line (lit "merchandise") ;;
  if negb (truthy merch) then Ok None
  else
    typename <- get merch (lit "__typename") ;;
    if negb (strict_eq_str typename (lit "ProductVariant")) then Ok None
    else
      mf <- get merch (lit "bundleRefs") ;;
      if negb (truthy mf) then Ok None
      else
        type <- get mf (lit "type") ;;
        if negb (strict_eq_str type (lit "list.variant_reference"))
        then Ok None
        else
          componentVariantIds <- normalizeVariantIds mf ;;
          if Nat.eqb (List.length componentVariantIds) 0 then Ok None
          else
            expandedCartItems <-
              mapM (fun variantId =>
                      q <- get line (lit "quantity") ;;
                      Ok {| merchandiseId := variantId;
                            quantity := js_coalesce q (JNum (num_of_Z 1)) |})
                   componentVariantIds ;;
            id <- get line (lit "id") ;;
            Ok (Some {| lineExpand :=
                          {| cartLineId := id;
                             expandedCartItems := expandedCartItems |} |}).

(** The loop, the array [operations] passed along; [push] appends. *)
Fixpoint for_lines (lines : list JsVal) (operations : list Operation)
  : completion (list Operation) :=
  match lines with
  | [] => Ok operations
  | line :: rest =>
      r <- line_step line ;;
      match r with
      | None => for_lines rest operations
      | Some op => for_lines rest (operations ++ [op])
      end
  end.

Definition cartTransformRun (input : JsVal)
  : completion CartTransformRunResult :=
  cart <- get input (lit "cart") ;;
  lines <- get cart (lit "lines") ;;
  elements <- iterate (js_coalesce lines (JArr [])) ;;
  operations <- for_lines elements [] ;;
  Ok {| operations := operations |}.

(* ================================================================= *)
(** ** Inputs *)

Definition is_object (v : JsVal) : bool :=
  match v with JObj _ => true | _ => false end.

(** The lines of a cart snapshot: the input is an object whose [cart] is an
    object whose [lines] is an array, or is missing. *)
Definition lines_of (input : JsVal) : option (list JsVal) :=
  if is_object input && is_object (prop input (lit "cart")) then
    match prop (prop input (lit "cart")) (lit "lines") with
    | JArr lines => Some lines
    | JUndefined | JNull => Some []
    | _ => None
    end
  else None.

(** The part of the input schema the transform relies on: the lines are
    objects.  What a line carries (identifier, quantity, merchandise,
    metafield) is left free. *)
Definition cart_snapshot (input : JsVal) : bool :=
  match lines_of input with
  | Some lines => forallb is_object lines
  | None => false
  end.

(** A snapshot with the given lines. *)
Definition cart_of (lines : list JsVal) : JsVal :=
  JObj [(lit "cart", JObj [(lit "lines", JArr lines)])].

(** A metafield, a product variant and a line, as object literals. *)
Definition metafield (type jsonValue value : JsVal) : JsVal :=
  JObj [(lit "type", type); (lit "jsonValue", jsonValue);
        (lit "value", value)].

Definition variant (bundleRefs : JsVal) : JsVal :=
  JObj [(lit "__typename", JStr (lit "ProductVariant"));
        (lit "bundleRefs", bundleRefs)].

Definition cart_line (id : string) (quantity merchandise : JsVal) : JsVal :=
  JObj [(lit "id", JStr (lit id)); (lit "quantity", quantity);
        (lit "merchandise", merchandise)].

Definition variant_reference : JsVal := JStr (lit "list.variant_reference").

(** What a line contributes to the result. *)
Definition line_ops (line : JsVal) : list Operation :=
  match line_step line with
  | Ok (Some op) => [op]
  | _ => []
  end.

(* ================================================================= *)
(** ** The transform as functions

    The monadic definitions above follow the source statement by statement.
    The definitions below say what they compute; the two are proved equal
    ([normalizeVariantIds_eq], [line_step_eq]). *)

(** The value of [raw] after the [try] block. *)
Definition raw_of (mf : JsVal) : JsVal :=
  let jsonValue := prop mf (lit "jsonValue") in
  if truthy jsonValue then jsonValue
  else
    match prop mf (lit "value") with
    | JStr text =>
        match JSON.parse text with
        | Ok v => v
        | Throw _ => jsonValue
        end
    | _ => jsonValue
    end.

Definition variant_ids (mf : JsVal) : list JsVal :=
  if truthy mf then resolve_raw (raw_of mf) else [].

Definition is_variant (merch : JsVal) : bool :=
  truthy merch
  && strict_eq_str (prop merch (lit "__typename")) (lit "ProductVariant").

Definition is_bundle_ref (mf : JsVal) : bool :=
  truthy mf
  && strict_eq_str (prop mf (lit "type")) (lit "list.variant_reference").

Definition expanded_item (line variantId : JsVal) : ExpandedItem :=
  {| merchandiseId := variantId;
     quantity := js_coalesce (prop line (lit "quantity")) (JNum (num_of_Z 1)) |}.

Definition line_result (line : JsVal) : option Operation :=
  let merch := prop line (lit "merchandise") in
  let mf := prop merch (lit "bundleRefs") in
  if is_variant merch && is_bundle_ref mf then
    match variant_ids mf with
    | [] => None
    | ids =>
        Some {| lineExpand :=
                  {| cartLineId := prop line (lit "id");
                     expandedCartItems := List.map (expanded_item line) ids |} |}
    end
  else None.

Arguments lit : simpl never.
Arguments num_of_Z : simpl never.

(** The merchandise of a line and its bundle metafield. *)
Definition merchandise_of (line : JsVal) : JsVal :=
  prop line (lit "merchandise").

Definition bundleRefs_of (line : JsVal) : JsVal :=
  prop (merchandise_of line) (lit "bundleRefs").

(** The operation that expands the line [id] into [ids], each with the
    quantity [q]. *)
Definition expansion (id : JsVal) (ids : list JsVal) (q : JsVal) : Operation :=
  {| lineExpand :=
       {| cartLineId := id;
          expandedCartItems :=
            List.map (fun v => {| merchandiseId := v; quantity := q |}) ids |} |}.

(* ================================================================= *)
(** ** Well-formed results *)

(** An expanded item that names a merchandise and a quantity. *)
Definition complete_item (item : ExpandedItem) : bool :=
  truthy (merchandiseId item) && negb (nullish (quantity item)).

(** An operation with at least one item, all of them complete. *)
Definition complete_operation (op : Operation) : bool :=
  match expandedCartItems (lineExpand op) with
  | [] => false
  | items => forallb complete_item items
  end.

(* ================================================================= *)
(** ** The specification's wording, for comparison with the code *)

(** A number that is a positive integer. *)
Definition is_positive_integer (v : JsVal) : bool :=
  match v with
  | JNum (S754_finite false m e) =>
      ((0 <=? e) || (Zpos m mod 2 ^ (- e) =? 0))%Z
  | _ => false
  end.

(** The effective quantity as the specification words it: the quantity of
    the line if it is present and a positive integer, 1 otherwise. *)
Definition spec_quantity (q : JsVal) : JsVal :=
  if is_positive_integer q then q else JNum (num_of_Z 1).

(** A field is present when reading it gives something else than
    [undefined]. *)
Definition has_field (v : JsVal) (k : jsstring) : bool :=
  match opt_get v k with
  | JUndefined => false
  | _ => true
  end.

(** The element mapping as the specification words it: a string is kept;
    any other element gives its [id] field, or if absent its [gid] field,
    or else is dropped. *)
Definition spec_item_id (item : JsVal) : option JsVal :=
  if is_string item then Some item
  else if has_field item (lit "id") then Some (opt_get item (lit "id"))
  else if has_field item (lit "gid") then Some (opt_get item (lit "gid"))
  else None.

Definition keep {A} (o : option A) : list A :=
  match o with
  | Some a => [a]
  | None => []
  end.

Definition spec_resolve_array (items : list JsVal) : list JsVal :=
  filter truthy (flat_map (fun item => keep (spec_item_id item)) items).

(** The same mapping with "absent" read as "absent or falsy". *)
Definition falsy_aware_item_id (item : JsVal) : option JsVal :=
  if is_string item then Some item
  else if truthy (opt_get item (lit "id")) then Some (opt_get item (lit "id"))
  else if truthy (opt_get item (lit "gid"))
  then Some (opt_get item (lit "gid"))
  else None.

Definition falsy_aware_resolve_array (items : list JsVal) : list JsVal :=
  filter truthy (flat_map (fun item => keep (falsy_aware_item_id item)) items).

(* ================================================================= *)
(** ** What a payload stands for, stated apart from the code *)

(** A well-formed identifier: a string that begins with gid://. *)
Definition is_identifier (v : JsVal) : bool :=
  match v with
  | JStr s => startsWith GID_PREFIX s
  | _ => false
  end.

(** The identifiers a resolved raw value gives.  In an array, a non-empty
    string gives itself and any other element gives its [id] if that is
    truthy, otherwise its [gid] if that is truthy; every other element is
    dropped.  A string that begins with gid:// gives itself; any other
    string gives its comma-separated pieces, trimmed, that begin with
    gid://, the other pieces being dropped.  Any other value gives
    nothing. *)
Definition expected_identifiers (raw : JsVal) : list JsVal :=
  match raw with
  | JArr items => falsy_aware_resolve_array items
  | JStr s =>
      if startsWith GID_PREFIX s then [JStr s]
      else
        List.map JStr
          (filter (startsWith GID_PREFIX) (List.map trim (split 44 s)))
  | _ => []
  end.

(** What a line gives: nothing (the line is skipped) unless its merchandise
    is a product variant whose metafield has the expected type and gives
    at least one identifier; then one operation for these identifiers. *)
Definition expected_operation (line : JsVal) : option Operation :=
  if is_variant (merchandise_of line) && is_bundle_ref (bundleRefs_of line)
  then
    match expected_identifiers (raw_of (bundleRefs_of line)) with
    | [] => None
    | ids =>
        Some (expansion (prop line (lit "id")) ids
                (js_coalesce (prop line (lit "quantity")) (JNum (num_of_Z 1))))
    end
  else None.

(* ================================================================= *)
(** ** Sample data *)

Definition gid (n : string) : jsstring :=
  lit "gid://shopify/ProductVariant/" ++ lit n.

(** The JSON text of a string without escapes: the string in quotes. *)
Definition json_quoted (s : jsstring) : jsstring := 34 :: s ++ [34].

Definition empty_string : JsVal := JStr [].

(** A metafield with no [jsonValue], its [value] a bare identifier. *)
Definition mf_raw_gid9 : JsVal :=
  JObj [(lit "type", variant_reference); (lit "value", JStr (gid "9"))].

(** A metafield with no [jsonValue], its [value] the JSON text of an
    identifier. *)
Definition mf_json_gid9 : JsVal :=
  JObj [(lit "type", variant_reference);
        (lit "value", JStr (json_quoted (gid "9")))].

Definition comma_list : jsstring :=
  gid "1" ++ lit ", not-a-gid, " ++ gid "2".

Definition bundle_of_two : JsVal :=
  metafield variant_reference (JArr [JStr (gid "1"); JStr (gid "2")])
    JUndefined.

Definition line_of_three : JsVal :=
  cart_line "gid://shopify/CartLine/1" (JNum (num_of_Z 3))
    (variant bundle_of_two).

Definition line_of_zero : JsVal :=
  cart_line "gid://shopify/CartLine/2" (JNum (num_of_Z 0))
    (variant bundle_of_two).

Definition line_without_quantity : JsVal :=
  JObj [(lit "id", JStr (lit "gid://shopify/CartLine/3"));
        (lit "merchandise", variant bundle_of_two)].

(** A line whose merchandise is not a product variant. *)
Definition custom_product_line : JsVal :=
  cart_line "gid://shopify/CartLine/4" (JNum (num_of_Z 1))
    (JObj [(lit "__typename", JStr (lit "CustomProduct"))]).

(** An element whose [id] is present and empty, next to a [gid]. *)
Definition empty_id_item : JsVal :=
  JObj [(lit "id", empty_string); (lit "gid", JStr (gid "7"))].

Definition mixed_items : list JsVal :=
  [JStr (gid "1"); JObj [(lit "id", JStr (gid "2"))]; JNull;
   JObj [(lit "gid", JStr (gid "3"))]; JObj []; JStr (gid "4")].

Definition unchecked_items : list JsVal :=
  [JStr (lit "not-a-gid"); JObj [(lit "id", JNum (num_of_Z 42))]].

(** Lines whose metafield type only resembles list.variant_reference. *)
Definition line_with_type (type : string) : JsVal :=
  cart_line "gid://shopify/CartLine/5" (JNum (num_of_Z 2))
    (variant (metafield (JStr (lit type))
                (JArr [JStr (gid "1"); JStr (gid "2")]) JUndefined)).

(** Entries that resolve to nothing. *)
Definition empty_entries : list JsVal :=
  [JNull; empty_string; JObj []; JObj [(lit "id", empty_string)];
   JNum (num_of_Z 0); JBool false; JObj [(lit "gid", JNull)]].

Definition unchecked_line : JsVal :=
  cart_line "gid://shopify/CartLine/6" (JNum (num_of_Z 1))
    (variant (metafield variant_reference (JArr unchecked_items) JUndefined)).

(* ================================================================= *)
(** ** When the transform returns *)

(** The elements the loop of [cartTransformRun] visits, when the reads
    before the loop succeed. *)
Definition elements_of (input : JsVal) : option (list JsVal) :=
  if nullish input || nullish (prop input (lit "cart")) then None
  else
    match js_coalesce (prop (prop input (lit "cart")) (lit "lines")) (JArr [])
    with
    | JArr items => Some items
    | JStr s => Some (List.map JStr (code_points s))
    | _ => None
    end.

Definition present (v : JsVal) : bool := negb (nullish v).

(** A string without a comma. *)
Definition comma_free (s : jsstring) : bool :=
  forallb (fun c => negb (c =? 44)) s.

(** The metafield the admin action saves on the bundle variant
    ([metafieldsSet] in the create route): its value is the JSON text of
    the component identifiers.  It is given here as the transform reads it
    when the parsed JSON value is not part of the input. *)
Definition saved_metafield (componentVariantIds : list jsstring) : JsVal :=
  JObj [(lit "type", variant_reference);
        (lit "value", JStr (JSON.stringify_strings componentVariantIds))].

Definition nonempty (s : jsstring) : bool :=
  match s with [] => false | _ :: _ => true end.

(* ================================================================= *)
(** ** The add-to-cart button
       ([extensions/bundle-add-to-cart/assets/bundle-add-button.js]) *)

(** [parseInt(s, 10)]: leading white space, a sign, then the longest run of
    decimal digits; [NaN] without a digit.  The digits are read exactly
    (an engine may round after the twentieth digit). *)
Definition parseInt10 (s : jsstring) : jsnumber :=
  let '(neg, digits) :=
    match trimStart s with
    | c :: r =>
        if c =? 45 then (true, r)
        else if c =? 43 then (false, r)
        else (false, c :: r)
    | [] => (false, [])
    end in
  match JSON.take_digits digits with
  | ([], _) => S754_nan
  | (ds, _) => num_of_decimal neg (JSON.digits_value ds) 0
  end.


Definition Number_isInteger (x : jsnumber) : bool :=
  match x with
  | S754_zero _ => true
  | S754_finite _ m e => ((0 <=? e) || (Zpos m mod 2 ^ (- e) =? 0))%Z
  | S754_infinity _ | S754_nan => false
  end.

Definition gt_zero (x : jsnumber) : bool :=
  match x with
  | S754_finite false _ _ | S754_infinity false => true
  | _ => false
  end.

Module BundleAddButton.

(** [parseIds(csv)]; a truthy [csv] that is not a string has no [split]
    to call. *)
Definition parseIds (csv : JsVal) : completion (list jsnumber) :=
  if negb (truthy csv) then Ok []
  else
    match csv with
    | JStr s =>
        Ok (filter (fun n => Number_isInteger n && gt_zero n)
              (List.map (fun s => parseInt10 (trim s)) (split 44 s)))
    | _ => Throw TypeError
    end.




End BundleAddButton.

(** The decimal digits [ds] as a string. *)
Definition digit_string (ds : list N) : jsstring :=
  List.map (fun d => 48 + d) ds.

(** A list of decimal digits that writes a positive integer below 2^53. *)
Definition writes_an_id (ds : list N) : bool :=
  forallb (fun d => d <? 10) ds
  && (0 <? JSON.digits_value ds) && (JSON.digits_value ds <? 2 ^ 53).

(** The digits [ds] between [before] and [after] spaces. *)
Definition padded (entry : nat * list N * nat) : jsstring :=
  let '(before, ds, after) := entry in
  repeat 32 before ++ digit_string ds ++ repeat 32 after.

Definition id_of (entry : nat * list N * nat) : jsnumber :=
  let '(_, ds, _) := entry in num_of_Z (Z.of_N (JSON.digits_value ds)).

(** A payload of truthy values none of which is an identifier. *)
Definition stray_values : list JsVal :=
  [JNum (num_of_Z 42); JBool true; JObj []; JArr []; JStr (lit " ")].

Definition stray_items : list JsVal :=
  [JObj [(lit "id", JNum (num_of_Z 42))]; JObj [(lit "id", JBool true)];
   JObj [(lit "id", JObj [])]; JObj [(lit "gid", JArr [])]; JStr (lit " ")].

Definition stray_line : JsVal :=
  cart_line "gid://shopify/CartLine/10" (JNum (num_of_Z 1))
    (variant (metafield variant_reference (JArr stray_items) JUndefined)).


(* ================================================================= *)
(** * Properties *)

(** ** Strings and values *)

Lemma str_eqb_eq (a b : jsstring) : str_eqb a b = true <-> a = b.
Proof.
  revert b; induction a as [|x a IH]; intros [|y b]; simpl;
    try (split; (discriminate || reflexivity)).
  rewrite andb_true_iff, N.eqb_eq, IH.
  split; [intros [-> ->]; reflexivity | intros [= -> ->]; auto].
Qed.

Lemma str_eqb_refl (a : jsstring) : str_eqb a a = true.
Proof. apply str_eqb_eq; reflexivity. Qed.

Lemma strict_eq_str_eq (v : JsVal) (s : jsstring) :
  strict_eq_str v s = true <-> v = JStr s.
Proof.
  destruct v; simpl; try (split; discriminate).
  rewrite str_eqb_eq. split; [intros ->; reflexivity | intros [= ->]; auto].
Qed.

Lemma truthy_not_nullish (v : JsVal) : truthy v = true -> nullish v = false.
Proof. destruct v; simpl; auto; discriminate. Qed.

Lemma is_object_not_nullish (v : JsVal) :
  is_object v = true -> nullish v = false.
Proof. destruct v; simpl; auto; discriminate. Qed.

Lemma get_ok (v : JsVal) (k : jsstring) :
  nullish v = false -> get v k = Ok (prop v k).
Proof. unfold get; intros ->; reflexivity. Qed.

Lemma prop_truthy_object (v : JsVal) (k : jsstring) :
  truthy (prop v k) = true -> is_object v = true.
Proof. destruct v; simpl; auto; discriminate. Qed.

Lemma prop_defined_object (v : JsVal) (k : jsstring) :
  prop v k <> JUndefined -> is_object v = true.
Proof. destruct v; simpl; congruence. Qed.

Lemma startsWith_app (p s : jsstring) : startsWith p (p ++ s) = true.
Proof.
  induction p as [|x p IH]; simpl; [reflexivity|].
  rewrite N.eqb_refl; exact IH.
Qed.

(** ** The parser terminates within its fuel *)

Import JSON.

Lemma skip_ws_length (s : jsstring) :
  (List.length (skip_ws s) <= List.length s)%nat.
Proof.
  induction s as [|c r IH]; simpl; [lia|].
  destruct (is_ws c); simpl; lia.
Qed.

Lemma skip_ws_cons_length (s r : jsstring) (c : N) :
  skip_ws s = c :: r -> (S (List.length r) <= List.length s)%nat.
Proof.
  intros H. pose proof (skip_ws_length s) as L. rewrite H in L. exact L.
Qed.

Lemma parse_chars_length (s t rest : jsstring) :
  parse_chars s = Some (t, rest) ->
  (S (List.length rest) <= List.length s)%nat.
Proof.
  remember (List.length s) as n eqn:Hn.
  revert s t rest Hn.
  induction n as [n IH] using lt_wf_ind.
  intros [|c r] t rest Hn; simpl; [discriminate|].
  simpl in Hn.
  destruct (c =? 34).
  { intros [= <- <-]. lia. }
  destruct (c =? 92).
  - destruct r as [|e r1]; [discriminate|].
    simpl in Hn.
    destruct (e =? 117).
    + destruct r1 as [|h1 [|h2 [|h3 [|h4 r2]]]]; try discriminate.
      simpl in Hn.
      destruct (hex_digit h1), (hex_digit h2), (hex_digit h3), (hex_digit h4);
        try discriminate.
      destruct (parse_chars r2) as [[t' rest']|] eqn:E; [|discriminate].
      intros [= <- <-].
      apply (IH (List.length r2)) in E; [lia | lia | reflexivity].
    + destruct (escape_unit e); [|discriminate].
      destruct (parse_chars r1) as [[t' rest']|] eqn:E; [|discriminate].
      intros [= <- <-].
      apply (IH (List.length r1)) in E; [lia | lia | reflexivity].
  - destruct (c <? 32); [discriminate|].
    destruct (parse_chars r) as [[t' rest']|] eqn:E; [|discriminate].
    intros [= <- <-].
    apply (IH (List.length r)) in E; [lia | lia | reflexivity].
Qed.

Lemma take_digits_length (s : jsstring) :
  (List.length (snd (take_digits s)) <= List.length s)%nat.
Proof.
  induction s as [|c r IH]; simpl; [lia|].
  destruct (is_digit c); simpl; [|lia].
  destruct (take_digits r); simpl in *; lia.
Qed.

Lemma take_digits_length' (s rest : jsstring) (ds : list N) :
  take_digits s = (ds, rest) -> (List.length rest <= List.length s)%nat.
Proof.
  intros H. pose proof (take_digits_length s) as L.
  rewrite H in L. exact L.
Qed.

Lemma parse_int_length (s rest : jsstring) (ds : list N) :
  parse_int s = Some (ds, rest) -> (List.length rest <= List.length s)%nat.
Proof.
  unfold parse_int.
  destruct s as [|c r]; [discriminate|].
  destruct (c =? 48); [intros [= <- <-]; simpl; lia|].
  destruct (is_digit c); [|discriminate].
  intros H. injection H as H. exact (take_digits_length' (c :: r) _ _ H).
Qed.

Lemma parse_frac_length (s rest : jsstring) (ds : list N) :
  parse_frac s = Some (ds, rest) -> (List.length rest <= List.length s)%nat.
Proof.
  unfold parse_frac.
  destruct s as [|c r]; [intros [= <- <-]; simpl; lia|].
  destruct (c =? 46); [|intros [= <- <-]; lia].
  destruct (take_digits r) as [[|d ds'] rest'] eqn:E; [discriminate|].
  intros [= <- <-]. apply take_digits_length' in E. simpl; lia.
Qed.

Lemma parse_exp_length (s rest : jsstring) (x : Z) :
  parse_exp s = Some (x, rest) -> (List.length rest <= List.length s)%nat.
Proof.
  unfold parse_exp.
  destruct s as [|c r]; [intros [= <- <-]; simpl; lia|].
  destruct ((c =? 101) || (c =? 69)); [|intros [= <- <-]; lia].
  set (sg := match r with
             | [] => (false, r)
             | d :: r' =>
                 if d =? 45 then (true, r')
                 else if d =? 43 then (false, r') else (false, r)
             end).
  assert (List.length (snd sg) <= List.length r)%nat as L.
  { subst sg. destruct r as [|d r']; simpl; [lia|].
    destruct (d =? 45); simpl; [lia|].
    destruct (d =? 43); simpl; lia. }
  destruct sg as [neg r1]. simpl in L.
  destruct (take_digits r1) as [[|d ds'] rest'] eqn:E; [discriminate|].
  intros [= <- <-]. apply take_digits_length' in E. simpl; lia.
Qed.

Lemma parse_number_length (s rest : jsstring) (x : jsnumber) :
  parse_number s = Some (x, rest) -> (List.length rest <= List.length s)%nat.
Proof.
  unfold parse_number.
  set (sg := match s with
             | [] => (false, s)
             | c :: r => if c =? 45 then (true, r) else (false, s)
             end).
  assert (List.length (snd sg) <= List.length s)%nat as L.
  { subst sg. destruct s as [|c r]; simpl; [lia|].
    destruct (c =? 45); simpl; lia. }
  destruct sg as [neg s1]. simpl in L.
  destruct (parse_int s1) as [[ints s2]|] eqn:E1; [|discriminate].
  destruct (parse_frac s2) as [[fracs s3]|] eqn:E2; [|discriminate].
  destruct (parse_exp s3) as [[e rest']|] eqn:E3; [|discriminate].
  intros [= <- <-].
  apply parse_int_length in E1. apply parse_frac_length in E2.
  apply parse_exp_length in E3. lia.
Qed.

Lemma expect_length (w s rest : jsstring) :
  expect w s = Some rest -> (List.length rest <= List.length s)%nat.
Proof.
  unfold expect. destruct (startsWith w s); [|discriminate].
  intros [= <-]. rewrite length_skipn. lia.
Qed.

Lemma keyword_length (w : string) (v v' : JsVal) (s rest : jsstring) :
  keyword w v s = POk v' rest -> (List.length rest <= List.length s)%nat.
Proof.
  unfold keyword. destruct (expect (lit w) s) eqn:E; [|discriminate].
  intros [= <- <-]. eapply expect_length; eauto.
Qed.

Lemma keyword_fuel (w : string) (v : JsVal) (s : jsstring) :
  keyword w v s <> PFuel.
Proof. unfold keyword. destruct (expect (lit w) s); discriminate. Qed.

Lemma parse_value_S (fuel : nat) (s : jsstring) :
  parse_value (S fuel) s =
  match skip_ws s with
  | [] => PErr
  | c :: r =>
      if c =? 110 then keyword "ull" JNull r
      else if c =? 116 then keyword "rue" (JBool true) r
      else if c =? 102 then keyword "alse" (JBool false) r
      else if c =? 34 then
        match parse_chars r with
        | Some (t, rest) => POk (JStr t) rest
        | None => PErr
        end
      else if c =? 91 then
        match skip_ws r with
        | d :: rest =>
            if d =? 93 then POk (JArr []) rest else parse_elements fuel r []
        | [] => PErr
        end
      else if c =? 123 then
        match skip_ws r with
        | d :: rest =>
            if d =? 125 then POk (JObj []) rest else parse_members fuel r []
        | [] => PErr
        end
      else if (c =? 45) || is_digit c then
        match parse_number (c :: r) with
        | Some (x, rest) => POk (JNum x) rest
        | None => PErr
        end
      else PErr
  end.
Proof. reflexivity. Qed.

Lemma parse_elements_S (fuel : nat) (s : jsstring) (acc : list JsVal) :
  parse_elements (S fuel) s acc =
  match parse_value fuel s with
  | POk v rest =>
      match skip_ws rest with
      | d :: rest' =>
          if d =? 44 then parse_elements fuel rest' (v :: acc)
          else if d =? 93 then POk (JArr (rev (v :: acc))) rest'
          else PErr
      | [] => PErr
      end
  | PErr => PErr
  | PFuel => PFuel
  end.
Proof. reflexivity. Qed.

Lemma parse_members_S (fuel : nat) (s : jsstring)
  (acc : list (jsstring * JsVal)) :
  parse_members (S fuel) s acc =
  match skip_ws s with
  | q :: r =>
      if q =? 34 then
        match parse_chars r with
        | Some (k, rest) =>
            match skip_ws rest with
            | d :: rest' =>
                if d =? 58 then
                  match parse_value fuel rest' with
                  | POk v rest'' =>
                      match skip_ws rest'' with
                      | d' :: r3 =>
                          if d' =? 44
                          then parse_members fuel r3 (set_prop k v acc)
                          else if d' =? 125
                          then POk (JObj (set_prop k v acc)) r3
                          else PErr
                      | [] => PErr
                      end
                  | PErr => PErr
                  | PFuel => PFuel
                  end
                else PErr
            | [] => PErr
            end
        | None => PErr
        end
      else PErr
  | [] => PErr
  end.
Proof. reflexivity. Qed.

(** Case analysis on the next test of a parser body, keeping what the
    scanners consumed. *)
Ltac parser_case :=
  match goal with
  | |- context [match skip_ws ?s with _ => _ end] =>
      let E := fresh "W" in
      destruct (skip_ws s) eqn:E;
      [|apply skip_ws_cons_length in E]
  | |- context [match parse_chars ?s with _ => _ end] =>
      let E := fresh "C" in
      destruct (parse_chars s) as [[? ?]|] eqn:E;
      [apply parse_chars_length in E|]
  | |- context [match parse_number ?s with _ => _ end] =>
      let E := fresh "M" in
      destruct (parse_number s) as [[? ?]|] eqn:E;
      [apply parse_number_length in E|]
  | |- context [if ?b then _ else _] => destruct b
  end.

Lemma parse_lengths (fuel : nat) :
  (forall s v rest, parse_value fuel s = POk v rest ->
                    (List.length rest <= List.length s)%nat) /\
  (forall s acc v rest, parse_elements fuel s acc = POk v rest ->
                        (List.length rest <= List.length s)%nat) /\
  (forall s acc v rest, parse_members fuel s acc = POk v rest ->
                        (List.length rest <= List.length s)%nat).
Proof.
  induction fuel as [|fuel (IHv & IHe & IHm)].
  { repeat split; intros; discriminate. }
  repeat split.
  - intros s v rest. rewrite parse_value_S.
    repeat parser_case; try discriminate;
      solve [ intros H; apply keyword_length in H; lia
            | intros [= <- <-]; simpl in *; lia
            | intros H; apply IHe in H; lia
            | intros H; apply IHm in H; lia ].
  - intros s acc v rest. rewrite parse_elements_S.
    destruct (parse_value fuel s) as [| |v0 rest0] eqn:V; try discriminate.
    apply IHv in V.
    repeat parser_case; try discriminate;
      solve [ intros H; apply IHe in H; lia | intros [= <- <-]; lia ].
  - intros s acc v rest. rewrite parse_members_S.
    do 5 (parser_case; try discriminate).
    match goal with
    | |- context [parse_value fuel ?t] =>
        destruct (parse_value fuel t) as [| |v0 rest0] eqn:V;
        try discriminate
    end.
    apply IHv in V.
    repeat parser_case; try discriminate;
      solve [ intros H; apply IHm in H; lia | intros [= <- <-]; lia ].
Qed.

Lemma parse_no_fuel (fuel : nat) :
  (forall s, (2 * List.length s + 1 <= fuel)%nat ->
             parse_value fuel s <> PFuel) /\
  (forall s acc, (2 * List.length s + 2 <= fuel)%nat ->
                 parse_elements fuel s acc <> PFuel) /\
  (forall s acc, (2 * List.length s + 2 <= fuel)%nat ->
                 parse_members fuel s acc <> PFuel).
Proof.
  induction fuel as [|fuel (IHv & IHe & IHm)].
  { repeat split; intros; lia. }
  repeat split.
  - intros s F. rewrite parse_value_S.
    repeat parser_case; try discriminate; try apply keyword_fuel;
      solve [ apply IHe; lia | apply IHm; lia ].
  - intros s acc F. rewrite parse_elements_S.
    destruct (parse_value fuel s) as [| |v0 rest0] eqn:V; try discriminate.
    + exfalso. revert V. apply IHv. lia.
    + apply (proj1 (parse_lengths fuel)) in V.
      repeat parser_case; try discriminate.
      apply IHe. lia.
  - intros s acc F. rewrite parse_members_S.
    do 5 (parser_case; try discriminate).
    match goal with
    | |- context [parse_value fuel ?t] =>
        destruct (parse_value fuel t) as [| |v0 rest0] eqn:V;
        try discriminate
    end.
    + exfalso. revert V. apply IHv. lia.
    + apply (proj1 (parse_lengths fuel)) in V.
      repeat parser_case; try discriminate.
      apply IHm. lia.
Qed.

(** The parser never runs out of the fuel [JSON.parse] gives it: every
    [SyntaxError] of the model is a syntax error of the text. *)
Lemma JSON_parse_fuel (text : jsstring) :
  parse_value (fuel_for text) text <> PFuel.
Proof. apply (proj1 (parse_no_fuel _)). unfold fuel_for. lia. Qed.

(** A text whose first code unit is neither white space nor the start of a
    JSON value is not JSON. *)
Lemma JSON_parse_bad_start (c : N) (r : jsstring) :
  is_ws c = false ->
  (c =? 110) || (c =? 116) || (c =? 102) || (c =? 34) || (c =? 91)
  || (c =? 123) || (c =? 45) || is_digit c = false ->
  JSON.parse (c :: r) = Throw SyntaxError.
Proof.
  intros W B. unfold JSON.parse, fuel_for.
  replace (2 * List.length (c :: r) + 1)%nat
    with (S (2 * List.length (c :: r))) by lia.
  rewrite parse_value_S. simpl skip_ws. rewrite W.
  repeat (apply orb_false_iff in B; destruct B as [B ?]).
  repeat match goal with H : _ = false |- _ => rewrite H; clear H end.
  reflexivity.
Qed.

Lemma startsWith_gid (s : jsstring) :
  startsWith GID_PREFIX s = true -> exists r, s = 103 :: r.
Proof.
  destruct s as [|c r]; [discriminate|].
  change GID_PREFIX with (103 :: lit "id://"). cbn [startsWith].
  intros H. apply andb_true_iff in H. destruct H as [H _].
  apply N.eqb_eq in H. subst c. eauto.
Qed.

(** An identifier is not JSON. *)
Lemma JSON_parse_gid (text : jsstring) :
  startsWith GID_PREFIX text = true -> JSON.parse text = Throw SyntaxError.
Proof.
  intros H. apply startsWith_gid in H. destruct H as [r ->].
  apply JSON_parse_bad_start; reflexivity.
Qed.

(** ** [normalizeVariantIds] as a function *)

Lemma normalizeVariantIds_eq (mf : JsVal) :
  normalizeVariantIds mf = Ok (variant_ids mf).
Proof.
  unfold normalizeVariantIds, variant_ids, raw_of.
  destruct (truthy mf) eqn:T; [|reflexivity].
  rewrite (get_ok _ _ (truthy_not_nullish _ T)). cbn [negb bind].
  destruct (truthy (prop mf (lit "jsonValue"))); [reflexivity|].
  cbn [negb]. rewrite (get_ok _ _ (truthy_not_nullish _ T)). cbn [bind].
  destruct (prop mf (lit "value")); try reflexivity.
  destruct (JSON.parse s); reflexivity.
Qed.

Lemma resolve_raw_falsy (raw : JsVal) :
  truthy raw = false -> resolve_raw raw = [].
Proof.
  destruct raw as [| | | |s| |]; try reflexivity; try discriminate.
  destruct s; [reflexivity|discriminate].
Qed.

Lemma startsWith_gid_nonempty (s : jsstring) :
  startsWith GID_PREFIX s = true -> truthy (JStr s) = true.
Proof. destruct s; [discriminate|reflexivity]. Qed.

(** Whatever is resolved is truthy. *)
Lemma resolve_raw_truthy (raw : JsVal) :
  Forall (fun v => truthy v = true) (resolve_raw raw).
Proof.
  destruct raw as [| | | |s|items|]; cbn [resolve_raw]; auto.
  - destruct (startsWith GID_PREFIX s) eqn:G.
    + repeat constructor. exact (startsWith_gid_nonempty _ G).
    + apply Forall_forall. intros v Hv.
      apply in_map_iff in Hv. destruct Hv as (t & <- & Ht).
      apply filter_In in Ht. exact (startsWith_gid_nonempty _ (proj2 Ht)).
  - apply Forall_forall. intros v Hv. apply filter_In in Hv. tauto.
Qed.

Lemma variant_ids_truthy (mf : JsVal) :
  Forall (fun v => truthy v = true) (variant_ids mf).
Proof.
  unfold variant_ids. destruct (truthy mf); [apply resolve_raw_truthy|auto].
Qed.

Lemma item_id_keep (item : JsVal) :
  filter truthy [item_id item]
  = filter truthy (keep (falsy_aware_item_id item)).
Proof.
  unfold item_id, falsy_aware_item_id, js_or.
  destruct (is_string item); [reflexivity|].
  destruct (truthy (opt_get item (lit "id"))) eqn:Ti;
    [|destruct (truthy (opt_get item (lit "gid"))) eqn:Tg];
    cbn [filter keep]; rewrite ?Ti, ?Tg; reflexivity.
Qed.

Lemma item_id_falsy_aware (items : list JsVal) :
  filter truthy (List.map item_id items) = falsy_aware_resolve_array items.
Proof.
  unfold falsy_aware_resolve_array.
  induction items as [|item items IH]; [reflexivity|].
  cbn [List.map flat_map]. rewrite filter_app, <- IH, <- item_id_keep.
  change (item_id item :: List.map item_id items)
    with ([item_id item] ++ List.map item_id items).
  apply filter_app.
Qed.

(** What the code resolves is what [expected_identifiers] names. *)
Lemma resolve_raw_expected (raw : JsVal) :
  resolve_raw raw = expected_identifiers raw.
Proof.
  destruct raw; try reflexivity. cbn [resolve_raw expected_identifiers].
  apply item_id_falsy_aware.
Qed.

(** ** The loop body as a function *)

Lemma mapM_quantity (line : JsVal) (ids : list JsVal) :
  nullish line = false ->
  mapM (fun variantId =>
          q <- get line (lit "quantity") ;;
          Ok {| merchandiseId := variantId;
                quantity := js_coalesce q (JNum (num_of_Z 1)) |}) ids
  = Ok (List.map (expanded_item line) ids).
Proof.
  intros L. induction ids as [|v ids IH]; [reflexivity|].
  cbn [mapM List.map]. rewrite IH, (get_ok _ _ L). reflexivity.
Qed.

Lemma line_step_eq (line : JsVal) :
  nullish line = false -> line_step line = Ok (line_result line).
Proof.
  intros L. unfold line_step, line_result, is_variant, is_bundle_ref.
  rewrite (get_ok _ _ L). cbn [bind].
  set (merch := prop line (lit "merchandise")).
  destruct (truthy merch) eqn:Tm; [|reflexivity].
  cbn [negb andb]. rewrite (get_ok _ _ (truthy_not_nullish _ Tm)). cbn [bind].
  destruct (strict_eq_str (prop merch (lit "__typename")) _); [|reflexivity].
  cbn [negb andb]. rewrite (get_ok _ _ (truthy_not_nullish _ Tm)). cbn [bind].
  set (mf := prop merch (lit "bundleRefs")).
  destruct (truthy mf) eqn:Tf; [|reflexivity].
  cbn [negb andb]. rewrite (get_ok _ _ (truthy_not_nullish _ Tf)). cbn [bind].
  destruct (strict_eq_str (prop mf (lit "type")) _); [|reflexivity].
  cbn [negb]. rewrite normalizeVariantIds_eq. cbn [bind].
  destruct (variant_ids mf) as [|v ids]; [reflexivity|].
  cbn [List.length Nat.eqb].
  rewrite (mapM_quantity _ _ L), (get_ok _ _ L). reflexivity.
Qed.

Lemma line_ops_eq (line : JsVal) :
  nullish line = false ->
  line_ops line = match line_result line with Some op => [op] | None => [] end.
Proof. intros L. unfold line_ops. rewrite (line_step_eq _ L). reflexivity. Qed.

Lemma line_step_ok_not_nullish (line : JsVal) (r : option Operation) :
  line_step line = Ok r -> nullish line = false.
Proof.
  unfold line_step, get. destruct (nullish line); [discriminate|reflexivity].
Qed.

Lemma line_result_items (line : JsVal) (op : Operation) :
  line_result line = Some op ->
  exists v ids,
    variant_ids (prop (prop line (lit "merchandise")) (lit "bundleRefs"))
      = v :: ids /\
    op = {| lineExpand :=
              {| cartLineId := prop line (lit "id");
                 expandedCartItems :=
                   List.map (expanded_item line) (v :: ids) |} |}.
Proof.
  unfold line_result.
  destruct (is_variant _ && is_bundle_ref _); [|discriminate].
  destruct (variant_ids _) as [|v ids]; [discriminate|].
  intros [= <-]. eauto.
Qed.

(** ** The loop *)

Lemma for_lines_eq (lines : list JsVal) (operations : list Operation) :
  Forall (fun line => nullish line = false) lines ->
  for_lines lines operations = Ok (operations ++ flat_map line_ops lines).
Proof.
  intros F. revert operations.
  induction F as [|line lines L F IH]; intros operations; simpl.
  - rewrite app_nil_r. reflexivity.
  - rewrite (line_ops_eq _ L), (line_step_eq _ L). cbn [bind].
    destruct (line_result line) as [op|]; rewrite IH.
    + rewrite <- app_assoc. reflexivity.
    + reflexivity.
Qed.

Lemma lines_of_run (input : JsVal) (lines : list JsVal) :
  lines_of input = Some lines ->
  cartTransformRun input =
  operations <- for_lines lines [] ;; Ok {| operations := operations |}.
Proof.
  unfold lines_of, cartTransformRun.
  destruct (is_object input) eqn:I; [|discriminate].
  destruct (is_object (prop input (lit "cart"))) eqn:C; [|discriminate].
  cbn [andb].
  rewrite (get_ok _ _ (is_object_not_nullish _ I)). cbn [bind].
  rewrite (get_ok _ _ (is_object_not_nullish _ C)). cbn [bind].
  destruct (prop (prop input (lit "cart")) (lit "lines"));
    try discriminate; intros [= <-]; reflexivity.
Qed.

Lemma cartTransformRun_eq (input : JsVal) (lines : list JsVal) :
  lines_of input = Some lines ->
  Forall (fun line => nullish line = false) lines ->
  cartTransformRun input = Ok {| operations := flat_map line_ops lines |}.
Proof.
  intros H F. rewrite (lines_of_run _ _ H), (for_lines_eq _ _ F).
  reflexivity.
Qed.

Lemma flat_map_line_ops_middle (before after : list JsVal) (line : JsVal)
  (op : Operation) :
  line_ops line = [op] ->
  flat_map line_ops (before ++ line :: after)
  = flat_map line_ops before ++ op :: flat_map line_ops after.
Proof.
  intros E. rewrite flat_map_app. cbn [flat_map]. rewrite E. reflexivity.
Qed.

Lemma lines_of_cart_of (lines : list JsVal) :
  lines_of (cart_of lines) = Some lines.
Proof. reflexivity. Qed.

Lemma forallb_object_not_nullish (lines : list JsVal) :
  forallb is_object lines = true ->
  Forall (fun line => nullish line = false) lines.
Proof.
  intros H. apply Forall_forall. intros l Hl.
  apply is_object_not_nullish.
  rewrite forallb_forall in H. auto.
Qed.

(* ================================================================= *)
(** * The specification, claim by claim *)

(** ** C1: the raw string value *)

(** C1, as stated, fails: a metafield with no parsed JSON value and the raw
    string value gid://shopify/ProductVariant/9 does not resolve to the
    one-element list.  The string is not JSON, [JSON.parse] throws, the
    [catch] leaves [raw] absent, and the result is the empty list. *)
Lemma raw_gid_value_resolves_to_nothing :
  JSON.parse (gid "9") = Throw SyntaxError /\
  normalizeVariantIds mf_raw_gid9 = Ok [] /\
  normalizeVariantIds mf_raw_gid9 <> Ok [JStr (gid "9")].
Proof.
  split; [|split]; [vm_compute; reflexivity .. | vm_compute; discriminate].
Qed.

(** C1, amended: when the parsed JSON value is absent (falsy) and the raw
    value is a string, the raw value is read as JSON and as nothing else.
    If it parses, the parsed value is resolved: a parsed string is a single
    identifier when it begins with gid://, and otherwise a comma-separated
    list, trimmed and filtered by that prefix.  If it does not parse, the
    result is empty; so a raw value that begins with gid:// always resolves
    to the empty list. *)
Theorem raw_value_is_read_as_json_only (mf : JsVal) (text : jsstring) :
  truthy mf = true ->
  truthy (prop mf (lit "jsonValue")) = false ->
  prop mf (lit "value") = JStr text ->
  normalizeVariantIds mf =
    Ok match JSON.parse text with
       | Ok v => resolve_raw v
       | Throw _ => []
       end
  /\ (startsWith GID_PREFIX text = true -> normalizeVariantIds mf = Ok [])
  /\ (forall s, JSON.parse text = Ok (JStr s) ->
        normalizeVariantIds mf =
          Ok (if startsWith GID_PREFIX s then [JStr s]
              else List.map JStr
                     (filter (startsWith GID_PREFIX)
                        (List.map trim (split 44 s))))).
Proof.
  intros T J V.
  assert (normalizeVariantIds mf =
            Ok match JSON.parse text with
               | Ok v => resolve_raw v
               | Throw _ => []
               end) as E.
  { rewrite normalizeVariantIds_eq. unfold variant_ids, raw_of.
    rewrite T, J, V.
    destruct (JSON.parse text); [reflexivity|].
    rewrite (resolve_raw_falsy _ J). reflexivity. }
  split; [exact E|split].
  - intros G. rewrite E, (JSON_parse_gid _ G). reflexivity.
  - intros s P. rewrite E, P. reflexivity.
Qed.

Lemma raw_value_is_read_as_json_only_witness :
  normalizeVariantIds mf_raw_gid9 = Ok [] /\
  normalizeVariantIds mf_json_gid9 = Ok [JStr (gid "9")].
Proof.
  split.
  - apply (raw_value_is_read_as_json_only mf_raw_gid9 (gid "9"));
      reflexivity.
  - destruct (raw_value_is_read_as_json_only mf_json_gid9
                (json_quoted (gid "9"))) as (_ & _ & H);
      [reflexivity .. |].
    rewrite (H (gid "9")); reflexivity.
Defined.

(** The string branch is reached through the parsed JSON value. *)
Example json_value_single_gid :
  normalizeVariantIds (metafield variant_reference (JStr (gid "9")) JUndefined)
  = Ok [JStr (gid "9")].
Proof. vm_compute. reflexivity. Qed.

(** A string that begins with gid:// is never split: the specification's
    comma-separated sample comes back whole. *)
Example json_value_comma_list_kept_whole :
  normalizeVariantIds (metafield variant_reference (JStr comma_list) JUndefined)
  = Ok [JStr comma_list].
Proof. vm_compute. reflexivity. Qed.

Example json_value_comma_list_split :
  normalizeVariantIds
    (metafield variant_reference (JStr (lit " " ++ comma_list)) JUndefined)
  = Ok [JStr (gid "1"); JStr (gid "2")].
Proof. vm_compute. reflexivity. Qed.

Example raw_value_comma_list :
  normalizeVariantIds (metafield variant_reference JUndefined (JStr comma_list))
  = Ok [].
Proof. vm_compute. reflexivity. Qed.

(** ** C2: the transform does not throw *)

Lemma normalizeVariantIds_total (mf : JsVal) :
  exists ids, normalizeVariantIds mf = Ok ids.
Proof. eexists. apply normalizeVariantIds_eq. Qed.

Lemma expanded_item_complete (line v : JsVal) :
  truthy v = true -> complete_item (expanded_item line v) = true.
Proof.
  intros T. unfold complete_item, expanded_item, js_coalesce.
  cbn [merchandiseId quantity]. rewrite T. destruct (nullish (prop line (lit "quantity"))) eqn:Q.
  - reflexivity.
  - rewrite Q. reflexivity.
Qed.

Lemma line_result_complete (line : JsVal) (op : Operation) :
  line_result line = Some op -> complete_operation op = true.
Proof.
  intros H. apply line_result_items in H. destruct H as (v & ids & E & ->).
  pose proof (variant_ids_truthy
                (prop (prop line (lit "merchandise")) (lit "bundleRefs"))) as T.
  rewrite E in T. unfold complete_operation. cbn [lineExpand expandedCartItems].
  change (forallb complete_item (List.map (expanded_item line) (v :: ids)) = true).
  apply forallb_forall. intros item Hi.
  apply in_map_iff in Hi. destruct Hi as (w & <- & Hw).
  apply expanded_item_complete.
  rewrite Forall_forall in T. auto.
Qed.

Lemma line_ops_complete (line : JsVal) (op : Operation) :
  nullish line = false -> In op (line_ops line) -> complete_operation op = true.
Proof.
  intros L. rewrite (line_ops_eq _ L).
  destruct (line_result line) as [op'|] eqn:E; [|intros []].
  intros [<-|[]]. exact (line_result_complete _ _ E).
Qed.

Lemma line_result_expected (line : JsVal) :
  line_result line = expected_operation line.
Proof.
  unfold line_result, expected_operation, merchandise_of, bundleRefs_of.
  destruct (is_variant _); [|reflexivity]. cbn [andb].
  destruct (is_bundle_ref _) eqn:B; [|reflexivity].
  unfold is_bundle_ref in B. apply andb_true_iff in B. destruct B as [T _].
  unfold variant_ids. rewrite T, resolve_raw_expected.
  destruct (expected_identifiers _) as [|v ids]; reflexivity.
Qed.

Lemma line_ops_expected (lines : list JsVal) :
  Forall (fun line => nullish line = false) lines ->
  flat_map line_ops lines
  = flat_map (fun line => keep (expected_operation line)) lines.
Proof.
  induction 1 as [|line lines L _ IH]; [reflexivity|].
  cbn [flat_map]. rewrite IH, (line_ops_eq _ L), line_result_expected.
  reflexivity.
Qed.

(** C2, as stated, fails: not every anomaly ends in a skipped line or a
    dropped identifier.  In an array payload a truthy value that is no
    identifier is kept: the line below, whose payload holds the number 42,
    [true], an object and an array under [id] or [gid] and a blank string,
    gives an operation with these five values as merchandise
    identifiers. *)
Lemma stray_values_are_emitted :
  cart_snapshot (cart_of [stray_line]) = true
  /\ cartTransformRun (cart_of [stray_line])
     = Ok {| operations :=
               [expansion (JStr (lit "gid://shopify/CartLine/10"))
                  stray_values (JNum (num_of_Z 1))] |}
  /\ ~ (forall result op item,
          cartTransformRun (cart_of [stray_line]) = Ok result ->
          In op (operations result) ->
          In item (expandedCartItems (lineExpand op)) ->
          is_identifier (merchandiseId item) = true).
Proof.
  split; [reflexivity|]. split; [vm_compute; reflexivity|].
  intros H.
  specialize (H {| operations :=
                     [expansion (JStr (lit "gid://shopify/CartLine/10"))
                        stray_values (JNum (num_of_Z 1))] |}
                (expansion (JStr (lit "gid://shopify/CartLine/10"))
                   stray_values (JNum (num_of_Z 1)))
                {| merchandiseId := JNum (num_of_Z 42);
                   quantity := JNum (num_of_Z 1) |}).
  assert (is_identifier (JNum (num_of_Z 42)) = true) as A.
  { apply H; [vm_compute; reflexivity | left; reflexivity
             | left; reflexivity]. }
  discriminate A.
Qed.

(** C2, amended: on every cart snapshot (an object whose cart holds lines
    that are objects, whatever their merchandise and metafield hold) the
    transform returns a result and throws nothing.  The result holds, line
    after line, what [expected_operation] names: a line is skipped unless
    its merchandise is a product variant whose metafield has the expected
    type and gives at least one identifier; in an array payload an element
    is dropped unless it is a non-empty string or has a truthy [id] or
    [gid]; in a string payload that does not begin with gid:// a piece is
    dropped unless it begins with gid://; a payload that is absent, does
    not parse or has another shape gives nothing.  What is kept is not
    checked any further, so a truthy value that is no identifier can be
    emitted.  Every operation is complete: at least one item, each with a
    truthy merchandise identifier and a quantity. *)
Theorem cartTransformRun_never_throws (input : JsVal) :
  cart_snapshot input = true ->
  exists result lines,
    lines_of input = Some lines
    /\ cartTransformRun input = Ok result
    /\ operations result
       = flat_map (fun line => keep (expected_operation line)) lines
    /\ forallb complete_operation (operations result) = true.
Proof.
  unfold cart_snapshot.
  destruct (lines_of input) as [lines|] eqn:E; [|discriminate].
  intros O. apply forallb_object_not_nullish in O.
  exists {| operations := flat_map line_ops lines |}, lines.
  split; [reflexivity|].
  split; [exact (cartTransformRun_eq _ _ E O)|].
  split; [exact (line_ops_expected _ O)|].
  cbn [operations]. apply forallb_forall. intros op Hop.
  apply in_flat_map in Hop. destruct Hop as (line & Hl & Hop).
  rewrite Forall_forall in O. exact (line_ops_complete _ _ (O _ Hl) Hop).
Qed.

Lemma cartTransformRun_never_throws_witness :
  cart_snapshot (cart_of [line_of_three; custom_product_line]) = true /\
  exists result lines,
    lines_of (cart_of [line_of_three; custom_product_line]) = Some lines
    /\ cartTransformRun (cart_of [line_of_three; custom_product_line])
       = Ok result
    /\ operations result
       = flat_map (fun line => keep (expected_operation line)) lines
    /\ forallb complete_operation (operations result) = true.
Proof.
  split; [reflexivity|].
  apply cartTransformRun_never_throws. reflexivity.
Defined.

(** ** C3: a bundle of two, three times *)

(** C3: a line whose merchandise is a product variant, whose metafield has
    the type list.variant_reference and the parsed JSON value
    [gid://shopify/ProductVariant/1, gid://shopify/ProductVariant/2], and
    whose quantity is 3, gives exactly one lineExpand operation: it carries
    the identifier of the line and exactly two items, each of quantity 3.
    In any cart that operation stands between the operations of the lines
    before and those of the lines after. *)
Theorem bundle_of_two_times_three (line : JsVal) :
  prop (merchandise_of line) (lit "__typename") = JStr (lit "ProductVariant") ->
  prop (bundleRefs_of line) (lit "type") = JStr (lit "list.variant_reference") ->
  prop (bundleRefs_of line) (lit "jsonValue")
    = JArr [JStr (gid "1"); JStr (gid "2")] ->
  prop line (lit "quantity") = JNum (num_of_Z 3) ->
  line_step line =
    Ok (Some (expansion (prop line (lit "id"))
                [JStr (gid "1"); JStr (gid "2")] (JNum (num_of_Z 3))))
  /\ forall input before after,
       lines_of input = Some (before ++ line :: after) ->
       Forall (fun l => nullish l = false) (before ++ after) ->
       cartTransformRun input =
         Ok {| operations :=
                 flat_map line_ops before
                 ++ expansion (prop line (lit "id"))
                      [JStr (gid "1"); JStr (gid "2")] (JNum (num_of_Z 3))
                    :: flat_map line_ops after |}.
Proof.
  unfold bundleRefs_of, merchandise_of. intros Ty Tf J Q.
  assert (nullish line = false) as L.
  { apply is_object_not_nullish, (prop_defined_object _ (lit "quantity")).
    rewrite Q. discriminate. }
  assert (line_result line =
            Some (expansion (prop line (lit "id"))
                    [JStr (gid "1"); JStr (gid "2")] (JNum (num_of_Z 3)))) as R.
  { unfold line_result, is_variant, is_bundle_ref, variant_ids, raw_of.
    rewrite Ty, Tf, J. cbn [truthy].
    assert (is_object (prop line (lit "merchandise")) = true) as Om
      by (apply (prop_defined_object _ (lit "__typename")); rewrite Ty;
          discriminate).
    assert (is_object (prop (prop line (lit "merchandise")) (lit "bundleRefs"))
            = true) as Of
      by (apply (prop_defined_object _ (lit "type")); rewrite Tf;
          discriminate).
    destruct (prop line (lit "merchandise")) as [| | | | | |pm];
      try discriminate Om.
    destruct (prop (JObj pm) (lit "bundleRefs")) as [| | | | | |pf];
      try discriminate Of.
    cbn [truthy strict_eq_str]. rewrite !str_eqb_refl. cbn [andb].
    unfold expansion, expanded_item, js_coalesce. rewrite Q.
    reflexivity. }
  split.
  - rewrite (line_step_eq _ L), R. reflexivity.
  - intros input before after E F.
    rewrite (cartTransformRun_eq _ _ E).
    + rewrite (flat_map_line_ops_middle _ _ _ _
                 ltac:(rewrite (line_ops_eq _ L), R; reflexivity)).
      reflexivity.
    + apply Forall_app in F. destruct F as [Fb Fa].
      apply Forall_app. split; [exact Fb|]. constructor; assumption.
Qed.

Lemma bundle_of_two_times_three_witness :
  cartTransformRun (cart_of [custom_product_line; line_of_three])
  = Ok {| operations :=
            [expansion (JStr (lit "gid://shopify/CartLine/1"))
               [JStr (gid "1"); JStr (gid "2")] (JNum (num_of_Z 3))] |}.
Proof.
  destruct (bundle_of_two_times_three line_of_three) as [_ H];
    [reflexivity .. |].
  rewrite (H (cart_of [custom_product_line; line_of_three])
             [custom_product_line] []);
    [reflexivity | reflexivity | repeat constructor].
Defined.

(** ** C4: the quantity of the expanded items *)

(** C4, as stated, fails: a quantity that is present but not a positive
    integer is carried as it is, not replaced by 1.  The line below has the
    quantity 0 and its expanded items have the quantity 0. *)
Lemma zero_quantity_is_carried :
  line_step line_of_zero =
    Ok (Some (expansion (JStr (lit "gid://shopify/CartLine/2"))
                [JStr (gid "1"); JStr (gid "2")] (JNum (num_of_Z 0))))
  /\ spec_quantity (prop line_of_zero (lit "quantity")) = JNum (num_of_Z 1)
  /\ ~ (forall op item,
          line_step line_of_zero = Ok (Some op) ->
          In item (expandedCartItems (lineExpand op)) ->
          quantity item = spec_quantity (prop line_of_zero (lit "quantity"))).
Proof.
  split; [vm_compute; reflexivity|].
  split; [vm_compute; reflexivity|].
  intros H.
  specialize (H (expansion (JStr (lit "gid://shopify/CartLine/2"))
                   [JStr (gid "1"); JStr (gid "2")] (JNum (num_of_Z 0)))
                {| merchandiseId := JStr (gid "1");
                   quantity := JNum (num_of_Z 0) |}).
  assert (JNum (num_of_Z 0) = JNum (num_of_Z 1)) as A.
  { apply H; [vm_compute; reflexivity | left; reflexivity]. }
  vm_compute in A. discriminate A.
Qed.

(** C4, amended: each expanded item carries the quantity of the line as it
    is whenever the line has one (a value other than [undefined] and
    [null]), and 1 when the line has none.  For a quantity that is a
    positive integer, and for a missing one, this is the quantity the
    specification names. *)
Theorem quantity_is_carried_unless_missing (line : JsVal) (op : Operation)
  (item : ExpandedItem) :
  line_step line = Ok (Some op) ->
  In item (expandedCartItems (lineExpand op)) ->
  (nullish (prop line (lit "quantity")) = false ->
     quantity item = prop line (lit "quantity"))
  /\ (nullish (prop line (lit "quantity")) = true ->
       quantity item = JNum (num_of_Z 1))
  /\ (is_positive_integer (prop line (lit "quantity")) = true
       \/ nullish (prop line (lit "quantity")) = true ->
       quantity item = spec_quantity (prop line (lit "quantity"))).
Proof.
  intros S I.
  pose proof (line_step_ok_not_nullish _ _ S) as L.
  rewrite (line_step_eq _ L) in S. injection S as S.
  apply line_result_items in S. destruct S as (v & ids & _ & ->).
  cbn [lineExpand expandedCartItems] in I.
  apply in_map_iff in I. destruct I as (w & <- & _).
  unfold expanded_item, js_coalesce, spec_quantity. cbn [quantity].
  destruct (prop line (lit "quantity")) as [| | |x| | |];
    cbn [nullish is_positive_integer];
    repeat split; try discriminate; try reflexivity;
    try (intros [?|?]; discriminate).
  intros [P|?]; [|discriminate]. rewrite P. reflexivity.
Qed.

Lemma quantity_is_carried_unless_missing_witness :
  (forall item,
     In item (expandedCartItems
                (lineExpand (expansion (JStr (lit "gid://shopify/CartLine/3"))
                               [JStr (gid "1"); JStr (gid "2")]
                               (JNum (num_of_Z 1))))) ->
     quantity item = JNum (num_of_Z 1))
  /\ line_step line_without_quantity =
       Ok (Some (expansion (JStr (lit "gid://shopify/CartLine/3"))
                   [JStr (gid "1"); JStr (gid "2")] (JNum (num_of_Z 1)))).
Proof.
  assert (line_step line_without_quantity =
            Ok (Some (expansion (JStr (lit "gid://shopify/CartLine/3"))
                        [JStr (gid "1"); JStr (gid "2")]
                        (JNum (num_of_Z 1))))) as S
    by (vm_compute; reflexivity).
  split; [|exact S].
  intros item I.
  destruct (quantity_is_carried_unless_missing line_without_quantity _ item
              S I) as (_ & H & _).
  apply H. reflexivity.
Defined.

(** ** C5: any other metafield type *)

(** C5: a line whose metafield type is not exactly the string
    list.variant_reference gives no operation, whatever the metafield
    holds; in a cart, the result is the one of the cart without that
    line. *)
Theorem other_metafield_type_gives_nothing (line : JsVal) :
  nullish line = false ->
  prop (bundleRefs_of line) (lit "type")
    <> JStr (lit "list.variant_reference") ->
  line_step line = Ok None
  /\ forall input before after,
       lines_of input = Some (before ++ line :: after) ->
       Forall (fun l => nullish l = false) (before ++ after) ->
       cartTransformRun input =
         Ok {| operations :=
                 flat_map line_ops before ++ flat_map line_ops after |}.
Proof.
  unfold bundleRefs_of, merchandise_of. intros L Ty.
  assert (line_result line = None) as R.
  { unfold line_result, is_bundle_ref.
    destruct (strict_eq_str _ (lit "list.variant_reference")) eqn:E.
    - apply strict_eq_str_eq in E. contradiction.
    - rewrite !andb_false_r. reflexivity. }
  split.
  - rewrite (line_step_eq _ L), R. reflexivity.
  - intros input before after E F.
    apply Forall_app in F. destruct F as [Fb Fa].
    rewrite (cartTransformRun_eq _ _ E).
    + rewrite flat_map_app. cbn [flat_map].
      rewrite (line_ops_eq _ L), R. reflexivity.
    + apply Forall_app. split; [exact Fb|]. constructor; assumption.
Qed.

Lemma other_metafield_type_gives_nothing_witness :
  line_step (line_with_type "list.variant_reference ") = Ok None
  /\ line_step (line_with_type "list.variant_referenc") = Ok None
  /\ line_step (line_with_type "List.variant_reference") = Ok None
  /\ cartTransformRun
       (cart_of [line_with_type "xlist.variant_reference"; line_of_three])
     = cartTransformRun (cart_of [line_of_three]).
Proof.
  split; [|split; [|split]].
  - apply (other_metafield_type_gives_nothing
             (line_with_type "list.variant_reference "));
      [reflexivity | vm_compute; discriminate].
  - apply (other_metafield_type_gives_nothing
             (line_with_type "list.variant_referenc"));
      [reflexivity | vm_compute; discriminate].
  - apply (other_metafield_type_gives_nothing
             (line_with_type "List.variant_reference"));
      [reflexivity | vm_compute; discriminate].
  - destruct (other_metafield_type_gives_nothing
                (line_with_type "xlist.variant_reference")) as [_ H];
      [reflexivity | vm_compute; discriminate |].
    rewrite (H (cart_of [line_with_type "xlist.variant_reference";
                         line_of_three]) [] [line_of_three]);
      [|reflexivity | repeat constructor].
    rewrite (cartTransformRun_eq (cart_of [line_of_three]) [line_of_three]);
      [reflexivity | reflexivity | repeat constructor].
Defined.

(** ** C6: an array of identifiers *)

Lemma has_field_falsy (v : JsVal) (k : jsstring) :
  has_field v k = false -> truthy (opt_get v k) = false.
Proof. unfold has_field. destruct (opt_get v k); (discriminate || reflexivity). Qed.

(** Where no element has an [id] that is present and falsy, the wording of
    the specification and the code agree. *)
Lemma spec_resolve_array_agrees (items : list JsVal) :
  Forall (fun item =>
            is_string item || negb (has_field item (lit "id"))
            || truthy (opt_get item (lit "id")) = true) items ->
  spec_resolve_array items = falsy_aware_resolve_array items.
Proof.
  unfold spec_resolve_array, falsy_aware_resolve_array.
  induction 1 as [|item items H _ IH]; [reflexivity|].
  cbn [flat_map]. rewrite !filter_app, IH. f_equal.
  unfold spec_item_id, falsy_aware_item_id.
  destruct (is_string item); [reflexivity|].
  destruct (has_field item (lit "id")) eqn:Hi; cbn [orb negb] in H.
  - rewrite H. reflexivity.
  - rewrite (has_field_falsy _ _ Hi).
    destruct (has_field item (lit "gid")) eqn:Hg.
    + destruct (truthy (opt_get item (lit "gid"))) eqn:Tg; [reflexivity|].
      cbn [keep filter]. rewrite Tg. reflexivity.
    + rewrite (has_field_falsy _ _ Hg). reflexivity.
Qed.

(** C6, as stated, fails: an element whose [id] is present but empty does
    not contribute its [id] (to be dropped as empty); the code moves on to
    its [gid], which is kept. *)
Lemma empty_id_falls_through_to_gid :
  normalizeVariantIds
    (metafield variant_reference (JArr [empty_id_item]) JUndefined)
  = Ok [JStr (gid "7")]
  /\ spec_resolve_array [empty_id_item] = []
  /\ normalizeVariantIds
       (metafield variant_reference (JArr [empty_id_item]) JUndefined)
     <> Ok (spec_resolve_array [empty_id_item]).
Proof.
  split; [|split]; [vm_compute; reflexivity .. | vm_compute; discriminate].
Qed.

(** C6, amended: when the resolved raw value is an array (the parsed JSON
    value, or the raw string value parsed as JSON when the parsed JSON
    value is absent), the result maps each element in order: a string is
    kept; any other element gives its [id] field when that is truthy,
    otherwise its [gid] field when that is truthy, and is dropped
    otherwise; falsy results are removed.  Where no element has an [id]
    that is present and falsy, this is the mapping the specification
    words. *)
Theorem array_is_resolved_in_order (mf : JsVal) (items : list JsVal) :
  truthy mf = true ->
  prop mf (lit "jsonValue") = JArr items
  \/ (truthy (prop mf (lit "jsonValue")) = false
      /\ exists text, prop mf (lit "value") = JStr text
                      /\ JSON.parse text = Ok (JArr items)) ->
  normalizeVariantIds mf = Ok (falsy_aware_resolve_array items)
  /\ (Forall (fun item =>
                is_string item || negb (has_field item (lit "id"))
                || truthy (opt_get item (lit "id")) = true) items ->
      normalizeVariantIds mf = Ok (spec_resolve_array items)).
Proof.
  intros T H.
  assert (normalizeVariantIds mf = Ok (falsy_aware_resolve_array items)) as E.
  { rewrite normalizeVariantIds_eq. unfold variant_ids, raw_of. rewrite T.
    destruct H as [J|(J & text & V & P)].
    - rewrite J. cbn [truthy resolve_raw].
      rewrite item_id_falsy_aware. reflexivity.
    - rewrite J, V, P. cbn [resolve_raw].
      rewrite item_id_falsy_aware. reflexivity. }
  split; [exact E|].
  intros F. rewrite E, (spec_resolve_array_agrees _ F). reflexivity.
Qed.

Lemma array_is_resolved_in_order_witness :
  normalizeVariantIds (metafield variant_reference (JArr mixed_items) JUndefined)
  = Ok [JStr (gid "1"); JStr (gid "2"); JStr (gid "3"); JStr (gid "4")].
Proof.
  destruct (array_is_resolved_in_order
              (metafield variant_reference (JArr mixed_items) JUndefined)
              mixed_items) as [H _];
    [reflexivity | left; reflexivity |].
  rewrite H. reflexivity.
Defined.

(** The same array as JSON text in the raw value. *)
Example array_in_raw_value :
  normalizeVariantIds
    (metafield variant_reference JNull
       (JStr (lit "[" ++ json_quoted (gid "1") ++ lit ", {"
              ++ json_quoted (lit "id") ++ lit ": "
              ++ json_quoted (gid "2") ++ lit "}]")))
  = Ok [JStr (gid "1"); JStr (gid "2")].
Proof. vm_compute. reflexivity. Qed.

(** ** C7: nothing to expand *)

(** C7: a cart with no lines (an empty list, or none at all), and a cart
    none of whose lines has a product variant as merchandise, gives the
    result with no operations. *)
Theorem no_variant_line_no_operation (input : JsVal) (lines : list JsVal) :
  lines_of input = Some lines ->
  Forall (fun line => nullish line = false
                      /\ is_variant (merchandise_of line) = false) lines ->
  cartTransformRun input = Ok NO_CHANGES.
Proof.
  intros E F. rewrite (cartTransformRun_eq _ _ E).
  - unfold NO_CHANGES. do 2 f_equal. clear E.
    induction F as [|line lines [L V] _ IH]; [reflexivity|].
    cbn [flat_map]. rewrite IH, (line_ops_eq _ L).
    unfold line_result. unfold merchandise_of in V. rewrite V. reflexivity.
  - eapply Forall_impl; [|exact F]. intros line [L _]. exact L.
Qed.

Lemma no_variant_line_no_operation_witness :
  cartTransformRun (cart_of []) = Ok NO_CHANGES
  /\ cartTransformRun (JObj [(lit "cart", JObj [])]) = Ok NO_CHANGES
  /\ cartTransformRun (cart_of [custom_product_line; JObj []]) = Ok NO_CHANGES.
Proof.
  split; [|split].
  - apply (no_variant_line_no_operation (cart_of []) []);
      [reflexivity | constructor].
  - apply (no_variant_line_no_operation (JObj [(lit "cart", JObj [])]) []);
      [reflexivity | constructor].
  - apply (no_variant_line_no_operation
             (cart_of [custom_product_line; JObj []])
             [custom_product_line; JObj []]);
      [reflexivity | repeat constructor].
Defined.

(** ** C8: the order of the operations *)

(** C8: the operations of the result are those of the lines, line after
    line in the order of the cart: a line gives either nothing or one
    operation, which carries the identifier of that line. *)
Theorem operations_follow_the_lines (input : JsVal) (lines : list JsVal) :
  lines_of input = Some lines ->
  Forall (fun line => nullish line = false) lines ->
  cartTransformRun input = Ok {| operations := flat_map line_ops lines |}
  /\ forall line, In line lines ->
       line_ops line = []
       \/ exists items,
            line_ops line =
              [{| lineExpand := {| cartLineId := prop line (lit "id");
                                   expandedCartItems := items |} |}].
Proof.
  intros E F. split; [exact (cartTransformRun_eq _ _ E F)|].
  intros line I. rewrite Forall_forall in F.
  rewrite (line_ops_eq _ (F _ I)).
  destruct (line_result line) as [op|] eqn:R; [right|left; reflexivity].
  apply line_result_items in R. destruct R as (v & ids & _ & ->). eauto.
Qed.

Lemma operations_follow_the_lines_witness :
  cartTransformRun
    (cart_of [line_of_three; custom_product_line; line_without_quantity])
  = Ok {| operations :=
            [expansion (JStr (lit "gid://shopify/CartLine/1"))
               [JStr (gid "1"); JStr (gid "2")] (JNum (num_of_Z 3));
             expansion (JStr (lit "gid://shopify/CartLine/3"))
               [JStr (gid "1"); JStr (gid "2")] (JNum (num_of_Z 1))] |}.
Proof.
  destruct (operations_follow_the_lines
              (cart_of [line_of_three; custom_product_line;
                        line_without_quantity])
              [line_of_three; custom_product_line; line_without_quantity])
    as [H _]; [reflexivity | repeat constructor |].
  rewrite H. vm_compute. reflexivity.
Defined.

(** ** C9: no empty identifier in the result *)










(** Empty entries resolve to nothing, and a line of them is skipped. *)
Example empty_entries_are_dropped :
  normalizeVariantIds
    (metafield variant_reference (JArr empty_entries) JUndefined) = Ok []
  /\ line_step
       (cart_line "gid://shopify/CartLine/7" (JNum (num_of_Z 1))
          (variant (metafield variant_reference (JArr empty_entries)
                      JUndefined)))
     = Ok None.
Proof. split; vm_compute; reflexivity. Qed.

(** ** C10: no prefix check on the elements of an array *)




(** The unchecked values reach the operation as they are. *)
Example unchecked_values_become_merchandise_ids :
  cartTransformRun (cart_of [unchecked_line])
  = Ok {| operations :=
            [expansion (JStr (lit "gid://shopify/CartLine/6"))
               [JStr (lit "not-a-gid"); JNum (num_of_Z 42)]
               (JNum (num_of_Z 1))] |}.
Proof. vm_compute. reflexivity. Qed.

(* ================================================================= *)
(** * Further properties of the transform *)

(** ** When it returns and when it throws *)

Lemma line_step_nullish (line : JsVal) :
  nullish line = true -> line_step line = Throw TypeError.
Proof. intros L. unfold line_step, get. rewrite L. reflexivity. Qed.

Lemma for_lines_run (lines : list JsVal) (operations : list Operation) :
  for_lines lines operations =
  if forallb present lines
  then Ok (operations ++ flat_map line_ops lines)
  else Throw TypeError.
Proof.
  revert operations.
  induction lines as [|line lines IH]; intros operations;
    cbn [for_lines forallb flat_map].
  - rewrite app_nil_r. reflexivity.
  - unfold present at 1. destruct (nullish line) eqn:L; cbn [negb andb].
    + rewrite (line_step_nullish _ L). reflexivity.
    + rewrite (line_ops_eq _ L), (line_step_eq _ L). cbn [bind].
      destruct (line_result line) as [op|]; rewrite IH;
        destruct (forallb present lines); try reflexivity.
      rewrite <- app_assoc. reflexivity.
Qed.

(** The transform returns exactly when [input] and [input.cart] are neither
    [undefined] nor [null], [cart.lines] is missing, [null], an array or a
    string, and none of its elements is [undefined] or [null].  It then
    returns the operations of the elements in order.  In every other case
    it throws a [TypeError], so that one [null] line loses the operations
    of all the lines; it never lets a [SyntaxError] out. *)
Theorem cartTransformRun_returns_or_throws (input : JsVal) :
  cartTransformRun input =
  match elements_of input with
  | Some elements =>
      if forallb present elements
      then Ok {| operations := flat_map line_ops elements |}
      else Throw TypeError
  | None => Throw TypeError
  end.
Proof.
  unfold cartTransformRun, elements_of, get.
  destruct (nullish input); [reflexivity|]. cbn [bind orb].
  destruct (nullish (prop input (lit "cart"))); [reflexivity|]. cbn [bind].
  destruct (js_coalesce _ _) as [| | | |s|items|]; cbn [iterate bind];
    try reflexivity;
    rewrite for_lines_run; destruct (forallb present _); reflexivity.
Qed.

(** A cart whose lines hold a [null] after a bundle line: the call throws
    and the expansion of the bundle line is lost with it. *)
Example null_line_loses_every_operation :
  cartTransformRun (cart_of [line_of_three; JNull]) = Throw TypeError.
Proof. vm_compute. reflexivity. Qed.

(** ** Which lines expand *)

Lemma string_prop_object (v : JsVal) (k s : jsstring) :
  prop v k = JStr s -> truthy v = true.
Proof. destruct v; simpl; try discriminate. reflexivity. Qed.

(** A line gives an operation exactly when its merchandise has the
    [__typename] ProductVariant, the [bundleRefs] of the merchandise has
    the [type] list.variant_reference, and that metafield resolves to at
    least one identifier. *)
Theorem line_expands_iff (line : JsVal) :
  nullish line = false ->
  (exists op, line_step line = Ok (Some op))
  <-> (prop (merchandise_of line) (lit "__typename")
         = JStr (lit "ProductVariant")
       /\ prop (bundleRefs_of line) (lit "type")
          = JStr (lit "list.variant_reference")
       /\ exists id ids,
            normalizeVariantIds (bundleRefs_of line) = Ok (id :: ids)).
Proof.
  intros L. unfold bundleRefs_of, merchandise_of.
  rewrite (line_step_eq _ L), normalizeVariantIds_eq.
  unfold line_result, is_variant, is_bundle_ref.
  set (merch := prop line (lit "merchandise")).
  set (mf := prop merch (lit "bundleRefs")).
  split.
  - intros [op H].
    destruct (truthy merch); [|discriminate].
    destruct (strict_eq_str (prop merch (lit "__typename")) _) eqn:Ty;
      [|discriminate].
    destruct (truthy mf); [|discriminate].
    destruct (strict_eq_str (prop mf (lit "type")) _) eqn:Tf; [|discriminate].
    apply strict_eq_str_eq in Ty. apply strict_eq_str_eq in Tf.
    destruct (variant_ids mf) as [|id ids]; [discriminate|]. eauto.
  - intros (Ty & Tf & id & ids & V). injection V as V.
    rewrite (string_prop_object _ _ _ Ty), (string_prop_object _ _ _ Tf).
    rewrite Ty, Tf. cbn [strict_eq_str]. rewrite !str_eqb_refl, V.
    cbn [andb]. eauto.
Qed.

Lemma line_expands_iff_witness :
  (exists op, line_step line_of_three = Ok (Some op))
  /\ ~ (exists op, line_step custom_product_line = Ok (Some op)).
Proof.
  split.
  - apply (line_expands_iff line_of_three); [reflexivity|].
    split; [reflexivity|]. split; [reflexivity|].
    exists (JStr (gid "1")), [JStr (gid "2")]. reflexivity.
  - intros H.
    apply (line_expands_iff custom_product_line) in H; [|reflexivity].
    destruct H as [H _]. vm_compute in H. discriminate H.
Defined.

(** ** What an operation carries *)

(** The expanded items of a line are its resolved identifiers, one item
    per identifier, in the same order and with repetitions kept, and they
    all carry the same quantity. *)
Theorem items_follow_the_identifiers (line : JsVal) (op : Operation) :
  line_step line = Ok (Some op) ->
  normalizeVariantIds (bundleRefs_of line)
    = Ok (List.map merchandiseId (expandedCartItems (lineExpand op)))
  /\ List.map quantity (expandedCartItems (lineExpand op))
     = repeat (js_coalesce (prop line (lit "quantity")) (JNum (num_of_Z 1)))
         (List.length (expandedCartItems (lineExpand op))).
Proof.
  intros S. pose proof (line_step_ok_not_nullish _ _ S) as L.
  rewrite (line_step_eq _ L) in S. injection S as S.
  apply line_result_items in S. destruct S as (v & ids & E & ->).
  unfold bundleRefs_of, merchandise_of.
  rewrite normalizeVariantIds_eq, E. cbn [lineExpand expandedCartItems].
  rewrite !map_map, length_map. split.
  - f_equal. symmetry. apply map_id.
  - generalize (v :: ids). intros l.
    induction l as [|w l IH]; [reflexivity|].
    cbn [List.map List.length repeat]. rewrite IH. reflexivity.
Qed.

Lemma items_follow_the_identifiers_witness :
  normalizeVariantIds
    (metafield variant_reference (JArr [JStr (gid "1"); JStr (gid "1")])
       JUndefined)
  = Ok [JStr (gid "1"); JStr (gid "1")].
Proof.
  destruct (items_follow_the_identifiers
              (cart_line "gid://shopify/CartLine/8" (JNum (num_of_Z 2))
                 (variant (metafield variant_reference
                             (JArr [JStr (gid "1"); JStr (gid "1")])
                             JUndefined)))
              (expansion (JStr (lit "gid://shopify/CartLine/8"))
                 [JStr (gid "1"); JStr (gid "1")] (JNum (num_of_Z 2))))
    as [H _]; [vm_compute; reflexivity|].
  exact H.
Defined.

(** ** Which of [jsonValue] and [value] is read *)

(** A truthy parsed JSON value decides the result alone: two metafields
    with the same truthy [jsonValue] resolve alike whatever their [value],
    and a truthy [jsonValue] that is neither an array nor a string (an
    object, a number, [true]) resolves to nothing even when [value] holds a
    list. *)
Theorem truthy_jsonValue_shadows_value (mf mf' : JsVal) :
  truthy mf = true ->
  truthy mf' = true ->
  truthy (prop mf (lit "jsonValue")) = true ->
  prop mf' (lit "jsonValue") = prop mf (lit "jsonValue") ->
  normalizeVariantIds mf' = normalizeVariantIds mf
  /\ ((forall items, prop mf (lit "jsonValue") <> JArr items) ->
      (forall s, prop mf (lit "jsonValue") <> JStr s) ->
      normalizeVariantIds mf = Ok []).
Proof.
  intros T T' J E. rewrite !normalizeVariantIds_eq.
  unfold variant_ids, raw_of. rewrite T, T', E, J. split; [reflexivity|].
  intros A S. destruct (prop mf (lit "jsonValue")); try reflexivity.
  - contradiction (S s). reflexivity.
  - contradiction (A items). reflexivity.
Qed.

Lemma truthy_jsonValue_shadows_value_witness :
  normalizeVariantIds
    (metafield variant_reference (JObj [])
       (JStr (JSON.stringify_strings [gid "1"])))
  = Ok [].
Proof.
  destruct (truthy_jsonValue_shadows_value
              (metafield variant_reference (JObj [])
                 (JStr (JSON.stringify_strings [gid "1"])))
              (metafield variant_reference (JObj []) JUndefined))
    as [_ H]; [reflexivity .. |].
  apply H; discriminate.
Defined.

(** A metafield of the right type with no parsed JSON value and no string
    [value] resolves to nothing, and its line is skipped. *)
Theorem metafield_without_payload_is_skipped (line : JsVal) :
  nullish line = false ->
  truthy (prop (bundleRefs_of line) (lit "jsonValue")) = false ->
  is_string (prop (bundleRefs_of line) (lit "value")) = false ->
  normalizeVariantIds (bundleRefs_of line) = Ok []
  /\ line_step line = Ok None.
Proof.
  unfold bundleRefs_of, merchandise_of. intros L J V.
  assert (variant_ids (prop (prop line (lit "merchandise")) (lit "bundleRefs"))
          = []) as E.
  { unfold variant_ids, raw_of. rewrite J.
    destruct (truthy (prop _ (lit "bundleRefs"))); [|reflexivity].
    destruct (prop _ (lit "value")); try discriminate V;
      apply resolve_raw_falsy; exact J. }
  split.
  - rewrite normalizeVariantIds_eq, E. reflexivity.
  - rewrite (line_step_eq _ L). unfold line_result. rewrite E.
    destruct (_ && _); reflexivity.
Qed.

Lemma metafield_without_payload_is_skipped_witness :
  line_step
    (cart_line "gid://shopify/CartLine/9" (JNum (num_of_Z 1))
       (variant (JObj [(lit "type", variant_reference)])))
  = Ok None.
Proof.
  apply (metafield_without_payload_is_skipped
           (cart_line "gid://shopify/CartLine/9" (JNum (num_of_Z 1))
              (variant (JObj [(lit "type", variant_reference)]))));
    reflexivity.
Defined.

(** ** A string of comma-separated identifiers *)

Lemma split_one (p : jsstring) : comma_free p = true -> split 44 p = [p].
Proof.
  induction p as [|c p IH]; [reflexivity|].
  cbn [comma_free forallb split]. intros H.
  apply andb_true_iff in H. destruct H as [C H].
  apply negb_true_iff in C. rewrite C.
  change (forallb (fun c => negb (c =? 44)) p) with (comma_free p) in H.
  rewrite (IH H). reflexivity.
Qed.

Lemma split_app_comma (p t : jsstring) :
  comma_free p = true -> split 44 (p ++ 44 :: t) = p :: split 44 t.
Proof.
  induction p as [|c p IH]; [reflexivity|].
  cbn [comma_free forallb split app]. intros H.
  apply andb_true_iff in H. destruct H as [C H].
  apply negb_true_iff in C. rewrite C.
  change (forallb (fun c => negb (c =? 44)) p) with (comma_free p) in H.
  rewrite (IH H). reflexivity.
Qed.

(** Splitting at the commas undoes joining with commas. *)
Lemma split_join (pieces : list jsstring) :
  pieces <> [] ->
  Forall (fun p => comma_free p = true) pieces ->
  split 44 (join 44 pieces) = pieces.
Proof.
  intros N F. induction F as [|p rest P F IH]; [contradiction|].
  destruct rest as [|q rest].
  - cbn [join]. exact (split_one _ P).
  - change (join 44 (p :: q :: rest)) with (p ++ 44 :: join 44 (q :: rest)).
    rewrite (split_app_comma _ _ P), IH; [reflexivity|discriminate].
Qed.

Lemma startsWith_before_comma (prefix p t : jsstring) :
  comma_free prefix = true ->
  startsWith prefix (p ++ 44 :: t) = startsWith prefix p.
Proof.
  revert p. induction prefix as [|x prefix IH]; intros p H; [reflexivity|].
  cbn [comma_free forallb] in H. apply andb_true_iff in H.
  destruct H as [X H]. apply negb_true_iff in X.
  destruct p as [|y p]; cbn [startsWith app].
  - rewrite X. reflexivity.
  - rewrite (IH p H). reflexivity.
Qed.

Lemma startsWith_join (prefix p : jsstring) (rest : list jsstring) :
  comma_free prefix = true ->
  startsWith prefix (join 44 (p :: rest)) = startsWith prefix p.
Proof.
  intros H. destruct rest as [|q rest]; [reflexivity|].
  change (join 44 (p :: q :: rest)) with (p ++ 44 :: join 44 (q :: rest)).
  apply startsWith_before_comma. exact H.
Qed.

(** When the parsed JSON value is a string of comma-separated pieces, the
    first piece decides: if it begins with gid://, the whole string comes
    back as one identifier, however many pieces follow; if it does not,
    the pieces are trimmed and those that begin with gid:// come back, in
    order. *)
Theorem comma_separated_string (mf : JsVal) (first : jsstring)
  (others : list jsstring) :
  truthy mf = true ->
  Forall (fun p => comma_free p = true) (first :: others) ->
  join 44 (first :: others) <> [] ->
  prop mf (lit "jsonValue") = JStr (join 44 (first :: others)) ->
  normalizeVariantIds mf =
    Ok (if startsWith GID_PREFIX first
        then [JStr (join 44 (first :: others))]
        else List.map JStr
               (filter (startsWith GID_PREFIX)
                  (List.map trim (first :: others)))).
Proof.
  intros T F N J. rewrite normalizeVariantIds_eq.
  unfold variant_ids, raw_of. rewrite T, J.
  assert (truthy (JStr (join 44 (first :: others))) = true) as Tj
    by (destruct (join 44 (first :: others)); [contradiction|reflexivity]).
  rewrite Tj. cbn [resolve_raw].
  rewrite (startsWith_join GID_PREFIX first others eq_refl).
  rewrite (split_join (first :: others)) by (discriminate || exact F).
  reflexivity.
Qed.

Lemma comma_separated_string_witness :
  normalizeVariantIds
    (metafield variant_reference
       (JStr (join 44 [gid "1"; lit " " ++ gid "2"])) JUndefined)
  = Ok [JStr (join 44 [gid "1"; lit " " ++ gid "2"])]
  /\ normalizeVariantIds
       (metafield variant_reference
          (JStr (join 44 [lit " " ++ gid "1"; lit " not-a-gid";
                          lit " " ++ gid "2 "])) JUndefined)
     = Ok [JStr (gid "1"); JStr (gid "2")].
Proof.
  split.
  - rewrite (comma_separated_string _ (gid "1") [lit " " ++ gid "2"]);
      [reflexivity | reflexivity | repeat constructor | discriminate
      | reflexivity].
  - rewrite (comma_separated_string _ (lit " " ++ gid "1")
               [lit " not-a-gid"; lit " " ++ gid "2 "]);
      [reflexivity | reflexivity | repeat constructor | discriminate
      | reflexivity].
Defined.

(* ================================================================= *)
(** * What the admin action saves, read back by the transform *)

(** ** [JSON.parse] undoes [JSON.stringify] *)

Lemma hex_digit_hex_char (n : N) : n < 16 -> hex_digit (hex_char n) = Some n.
Proof.
  intros H. destruct n as [|p]; [reflexivity|].
  repeat (destruct p as [p|p|]; try reflexivity; try lia).
Qed.

Lemma nibbles (c : N) :
  c < 65536 ->
  c / 4096 < 16 /\ (c / 256) mod 16 < 16 /\ (c / 16) mod 16 < 16
  /\ c mod 16 < 16
  /\ ((c / 4096 * 16 + (c / 256) mod 16) * 16 + (c / 16) mod 16) * 16
     + c mod 16 = c.
Proof.
  intros H. zify. Z.to_euclidean_division_equations. lia.
Qed.

Lemma parse_chars_cons (c : N) (r : jsstring) :
  parse_chars (c :: r) =
  if c =? 34 then Some ([], r)
  else if c =? 92 then
    match r with
    | [] => None
    | e :: r1 =>
        if e =? 117 then
          match r1 with
          | h1 :: h2 :: h3 :: h4 :: r2 =>
              match hex_digit h1, hex_digit h2, hex_digit h3, hex_digit h4,
                    parse_chars r2 with
              | Some a, Some b, Some c', Some d, Some (t, rest) =>
                  Some ((((a * 16 + b) * 16 + c') * 16 + d) :: t, rest)
              | _, _, _, _, _ => None
              end
          | _ => None
          end
        else
          match escape_unit e, parse_chars r1 with
          | Some u, Some (t, rest) => Some (u :: t, rest)
          | _, _ => None
          end
    end
  else if c <? 32 then None
  else
    match parse_chars r with
    | Some (t, rest) => Some (c :: t, rest)
    | None => None
    end.
Proof. reflexivity. Qed.

(** A code unit that stands for itself in a JSON string. *)
Lemma parse_chars_plain (c : N) (tail t rest : jsstring) :
  (c =? 34) = false -> (c =? 92) = false -> (c <? 32) = false ->
  parse_chars tail = Some (t, rest) ->
  parse_chars (c :: tail) = Some (c :: t, rest).
Proof.
  intros Q B L P. rewrite parse_chars_cons, Q, B, L, P. reflexivity.
Qed.

Lemma parse_chars_unicode_escape (c : N) (tail t rest : jsstring) :
  c < 65536 ->
  parse_chars tail = Some (t, rest) ->
  parse_chars (unicode_escape c ++ tail) = Some (c :: t, rest).
Proof.
  intros W P. destruct (nibbles c W) as (A & B & C & D & E).
  unfold unicode_escape. cbn [app]. rewrite parse_chars_cons.
  change (92 =? 34) with false. change (92 =? 92) with true.
  change (117 =? 117) with true. cbv iota.
  rewrite !hex_digit_hex_char by assumption. rewrite P, E. reflexivity.
Qed.

Lemma parse_chars_quote_code_unit (c : N) (tail t rest : jsstring) :
  c < 65536 ->
  parse_chars tail = Some (t, rest) ->
  parse_chars (quote_code_point [c] ++ tail) = Some (c :: t, rest).
Proof.
  intros W P. unfold quote_code_point.
  repeat match goal with
         | |- context [if ?x =? ?k then _ else _] =>
             let E := fresh "E" in
             destruct (x =? k) eqn:E;
             [apply N.eqb_eq in E; subst x; cbn [app];
              rewrite parse_chars_cons; cbn; rewrite P; reflexivity|]
         end.
  destruct ((c <? 32) || is_high_surrogate c || is_low_surrogate c) eqn:S.
  - exact (parse_chars_unicode_escape _ _ _ _ W P).
  - apply orb_false_iff in S. destruct S as [S _].
    apply orb_false_iff in S. destruct S as [S _].
    cbn [app]. apply parse_chars_plain; assumption.
Qed.

Lemma surrogate_plain (c : N) :
  is_high_surrogate c || is_low_surrogate c = true ->
  (c =? 34) = false /\ (c =? 92) = false /\ (c <? 32) = false.
Proof.
  unfold is_high_surrogate, is_low_surrogate. intros H.
  repeat split; [apply N.eqb_neq | apply N.eqb_neq | apply N.ltb_ge];
    apply orb_true_iff in H; destruct H as [H|H];
    apply andb_true_iff in H; destruct H as [H _];
    apply N.leb_le in H; lia.
Qed.

Lemma code_points_cons2 (c d : N) (r : jsstring) :
  code_points (c :: d :: r) =
  if is_high_surrogate c && is_low_surrogate d
  then [c; d] :: code_points r
  else [c] :: code_points (d :: r).
Proof. reflexivity. Qed.

Lemma parse_chars_quoted (s rest : jsstring) :
  well_formed s = true ->
  parse_chars (List.concat (List.map quote_code_point (code_points s))
               ++ 34 :: rest)
  = Some (s, rest).
Proof.
  remember (List.length s) as n eqn:Hn. revert s Hn.
  induction n as [n IH] using lt_wf_ind. intros s Hn W.
  destruct s as [|c [|d r]].
  - reflexivity.
  - cbn [code_points List.map List.concat]. rewrite app_nil_r.
    cbn [well_formed forallb] in W. apply andb_true_iff in W.
    destruct W as [Wc _]. apply N.ltb_lt in Wc.
    apply parse_chars_quote_code_unit; [exact Wc|reflexivity].
  - cbn [well_formed forallb] in W. apply andb_true_iff in W.
    destruct W as [Wc W]. apply N.ltb_lt in Wc.
    rewrite code_points_cons2.
    destruct (is_high_surrogate c && is_low_surrogate d) eqn:P.
    + apply andb_true_iff in W. destruct W as [_ W].
      apply andb_true_iff in P. destruct P as [Pc Pd].
      cbn [List.map List.concat quote_code_point app].
      destruct (surrogate_plain c) as (Q1 & Q2 & Q3);
        [rewrite Pc; reflexivity|].
      destruct (surrogate_plain d) as (R1 & R2 & R3);
        [rewrite Pd; apply orb_true_r|].
      apply parse_chars_plain; try assumption.
      apply parse_chars_plain; try assumption.
      apply (IH (List.length r)); [simpl in Hn; lia | reflexivity | exact W].
    + cbn [List.map List.concat]. rewrite <- app_assoc.
      apply parse_chars_quote_code_unit; [exact Wc|].
      apply (IH (List.length (d :: r))); [simpl in *; lia | reflexivity|].
      exact W.
Qed.

Lemma parse_value_quoted (fuel : nat) (s rest : jsstring) :
  well_formed s = true ->
  parse_value (S fuel) (quote s ++ rest) = POk (JStr s) rest.
Proof.
  intros W. unfold quote. cbn [app]. rewrite <- app_assoc. cbn [app].
  rewrite parse_value_S. cbn [skip_ws].
  change (is_ws 34) with false. cbv iota.
  change (34 =? 110) with false. change (34 =? 116) with false.
  change (34 =? 102) with false. change (34 =? 34) with true. cbv iota.
  rewrite (parse_chars_quoted _ _ W). reflexivity.
Qed.

Lemma parse_elements_quoted (a : list jsstring) :
  forall (s : jsstring) (acc : list JsVal) (fuel : nat) (tail : jsstring),
    Forall (fun x => well_formed x = true) (s :: a) ->
    (List.length (s :: a) < fuel)%nat ->
    parse_elements fuel (join 44 (List.map quote (s :: a)) ++ 93 :: tail) acc
    = POk (JArr (rev acc ++ List.map JStr (s :: a))) tail.
Proof.
  induction a as [|s' a IH]; intros s acc fuel tail F L.
  - destruct fuel as [|[|fuel]]; [simpl in L; lia .. |].
    cbn [List.map join]. rewrite parse_elements_S.
    rewrite (parse_value_quoted _ _ _ (Forall_inv F)). reflexivity.
  - destruct fuel as [|[|fuel]]; [simpl in L; lia .. |].
    change (join 44 (List.map quote (s :: s' :: a)))
      with (quote s ++ 44 :: join 44 (List.map quote (s' :: a))).
    rewrite <- app_assoc. cbn [app]. rewrite parse_elements_S.
    rewrite (parse_value_quoted _ _ _ (Forall_inv F)).
    cbn [skip_ws]. change (is_ws 44) with false. cbv iota.
    change (44 =? 44) with true. cbv iota.
    rewrite (IH s' (JStr s :: acc) (S fuel) tail (Forall_inv_tail F));
      [|simpl in *; lia].
    cbn [rev List.map]. rewrite <- app_assoc. reflexivity.
Qed.

Lemma join_quoted_length (a : list jsstring) :
  (List.length a <= List.length (join 44 (List.map quote a)))%nat.
Proof.
  induction a as [|s [|s' a] IH]; [simpl; lia | simpl; lia |].
  change (join 44 (List.map quote (s :: s' :: a)))
    with (quote s ++ 44 :: join 44 (List.map quote (s' :: a))).
  rewrite length_app. cbn [List.length] in *. lia.
Qed.

Lemma join_quoted_head (s : jsstring) (a : list jsstring) (tail : jsstring) :
  exists body, join 44 (List.map quote (s :: a)) ++ tail = 34 :: body.
Proof.
  destruct a as [|s' a].
  - cbn [List.map join]. unfold quote. cbn [app]. eauto.
  - change (join 44 (List.map quote (s :: s' :: a)))
      with (quote s ++ 44 :: join 44 (List.map quote (s' :: a))).
    unfold quote at 1. cbn [app]. eauto.
Qed.

Lemma parse_stringify_array (a : list jsstring) :
  Forall (fun s => well_formed s = true) a ->
  JSON.parse (stringify_strings a) = Ok (JArr (List.map JStr a)).
Proof.
  intros F. unfold JSON.parse, fuel_for, stringify_strings.
  rewrite Nat.add_1_r.
  rewrite parse_value_S. cbn [skip_ws]. change (is_ws 91) with false.
  cbv iota.
  change (91 =? 110) with false. change (91 =? 116) with false.
  change (91 =? 102) with false. change (91 =? 34) with false.
  change (91 =? 91) with true. cbv iota.
  destruct a as [|s a]; [reflexivity|].
  destruct (join_quoted_head s a [93]) as [body E].
  rewrite E at 1. cbn [skip_ws]. change (is_ws 34) with false. cbv iota.
  change (34 =? 93) with false. cbv iota.
  rewrite (parse_elements_quoted a s [] _ [] F).
  - reflexivity.
  - pose proof (join_quoted_length (s :: a)) as L.
    cbn [List.length] in *. rewrite length_app. cbn [List.length]. lia.
Qed.

(** [JSON.parse] gives back the string, and the array of strings, that
    [JSON.stringify] wrote, whatever the strings hold: quotes, reverse
    solidi, control characters, surrogates paired or not. *)
Theorem parse_undoes_stringify (s : jsstring) (a : list jsstring) :
  well_formed s = true ->
  Forall (fun x => well_formed x = true) a ->
  JSON.parse (quote s) = Ok (JStr s)
  /\ JSON.parse (stringify_strings a) = Ok (JArr (List.map JStr a)).
Proof.
  intros W F. split; [|exact (parse_stringify_array _ F)].
  unfold JSON.parse, fuel_for. rewrite Nat.add_1_r.
  rewrite <- (app_nil_r (quote s)) at 2.
  rewrite (parse_value_quoted _ _ _ W). reflexivity.
Qed.

Lemma parse_undoes_stringify_witness :
  JSON.parse (quote [34; 92; 10; 56832]) = Ok (JStr [34; 92; 10; 56832])
  /\ JSON.parse (stringify_strings [gid "1"; [34; 92; 10; 56832]; []])
     = Ok (JArr [JStr (gid "1"); JStr [34; 92; 10; 56832]; JStr []]).
Proof.
  apply (parse_undoes_stringify [34; 92; 10; 56832]
           [gid "1"; [34; 92; 10; 56832]; []]);
    [reflexivity | repeat constructor].
Defined.

(** ** The transform on a saved metafield *)

Lemma item_id_strings (ids : list jsstring) :
  filter truthy (List.map item_id (List.map JStr ids))
  = List.map JStr (filter nonempty ids).
Proof.
  induction ids as [|s ids IH]; [reflexivity|].
  cbn [List.map filter]. rewrite IH.
  unfold item_id at 1. cbn [is_string truthy nonempty].
  destruct s; reflexivity.
Qed.

Lemma saved_metafield_ids (ids : list jsstring) :
  Forall (fun s => well_formed s = true) ids ->
  variant_ids (saved_metafield ids) = List.map JStr (filter nonempty ids).
Proof.
  intros F. unfold variant_ids, raw_of, saved_metafield.
  cbn [truthy]. 
  change (prop (JObj _) (lit "jsonValue")) with JUndefined.
  change (prop (JObj ?p) (lit "value"))
    with (JStr (stringify_strings ids)).
  cbn [truthy]. rewrite (parse_stringify_array _ F). cbn [resolve_raw].
  apply item_id_strings.
Qed.

(** The create action saves the component identifiers as the JSON text of
    their array.  Read from the raw value, that text resolves to the same
    identifiers in the same order, the empty ones left out, and a line of
    that bundle expands into them. *)
Theorem saved_metafield_resolves_back (ids : list jsstring) (id : string)
  (q : JsVal) :
  Forall (fun s => well_formed s = true) ids ->
  normalizeVariantIds (saved_metafield ids)
    = Ok (List.map JStr (filter nonempty ids))
  /\ line_step (cart_line id q (variant (saved_metafield ids)))
     = Ok match filter nonempty ids with
          | [] => None
          | kept =>
              Some (expansion (JStr (lit id)) (List.map JStr kept)
                      (js_coalesce q (JNum (num_of_Z 1))))
          end.
Proof.
  intros F. split.
  - rewrite normalizeVariantIds_eq, (saved_metafield_ids _ F). reflexivity.
  - rewrite line_step_eq by reflexivity. unfold line_result.
    change (prop (cart_line id q (variant (saved_metafield ids)))
              (lit "merchandise"))
      with (variant (saved_metafield ids)).
    change (prop (variant (saved_metafield ids)) (lit "bundleRefs"))
      with (saved_metafield ids).
    change (is_variant (variant (saved_metafield ids))) with true.
    change (is_bundle_ref (saved_metafield ids)) with true.
    cbn [andb]. rewrite (saved_metafield_ids _ F).
    destruct (filter nonempty ids) as [|k kept]; [reflexivity|].
    cbn [List.map]. unfold expansion, expanded_item. cbn [List.map].
    rewrite !map_map. reflexivity.
Qed.

Lemma saved_metafield_resolves_back_witness :
  normalizeVariantIds (saved_metafield [gid "1"; gid "2"])
  = Ok [JStr (gid "1"); JStr (gid "2")].
Proof.
  destruct (saved_metafield_resolves_back [gid "1"; gid "2"]
              "gid://shopify/CartLine/1" (JNum (num_of_Z 2))) as [H _];
    [repeat constructor|].
  exact H.
Defined.

(* ================================================================= *)
(** * The add-to-cart button *)

(** ** Small integers as numbers *)

Lemma digits2_pos_iter (p k : positive) :
  digits2_pos (Pos.iter xO p k) = (digits2_pos p + k)%positive.
Proof.
  induction k as [|k IH] using Pos.peano_ind.
  - cbn. rewrite Pos.add_1_r. reflexivity.
  - rewrite Pos.iter_succ. cbn [digits2_pos]. rewrite IH.
    rewrite Pos.add_succ_r. reflexivity.
Qed.

Lemma Zpos_iter_xO (p k : positive) :
  Zpos (Pos.iter xO p k) = (Zpos p * 2 ^ Zpos k)%Z.
Proof.
  induction k as [|k IH] using Pos.peano_ind.
  - cbn. rewrite Pos.mul_comm. reflexivity.
  - rewrite Pos.iter_succ, Pos2Z.inj_xO, IH, Pos2Z.inj_succ.
    rewrite Z.pow_succ_r by lia. ring.
Qed.

Lemma digits2_pos_size (p : positive) : digits2_pos p = Pos.size p.
Proof. induction p as [p IH|p IH|]; cbn; rewrite ?IH; reflexivity. Qed.

Lemma digits2_pos_bound (p : positive) :
  (Zpos p < 2 ^ 53)%Z -> (Zpos (digits2_pos p) <= 53)%Z.
Proof.
  intros H. rewrite digits2_pos_size.
  destruct (Z_le_gt_dec (Zpos (Pos.size p)) 53) as [L|G]; [exact L|].
  exfalso. pose proof (Pos.size_le p) as S.
  apply Pos2Z.pos_le_pos in S. rewrite Pos2Z.inj_pow in S.
  rewrite (Pos2Z.inj_xO p) in S.
  assert (2 ^ 54 <= 2 ^ Zpos (Pos.size p))%Z as M
    by (apply Z.pow_le_mono_r; lia).
  change (2 ^ 54)%Z with (2 * 2 ^ 53)%Z in M. lia.
Qed.

Lemma binary_round_aux_exact (m : positive) (e : Z) :
  fexp prec emax (Zpos (digits2_pos m) + e) = e ->
  (e <=? emax - prec)%Z = true ->
  binary_round_aux prec emax false (Zpos m) e loc_Exact
  = S754_finite false m e.
Proof.
  intros F L. unfold binary_round_aux, shr_fexp. cbn [Zdigits2].
  rewrite F, Z.sub_diag.
  cbn [shr shr_record_of_loc shr_m loc_of_shr_record round_nearest_even
       Zdigits2].
  rewrite F, Z.sub_diag. cbn [shr shr_m]. rewrite L. reflexivity.
Qed.

Lemma fexp_small (d : Z) :
  (0 < d <= 53)%Z -> fexp prec emax d = (d - 53)%Z.
Proof.
  intros H. unfold fexp, emin, prec, emax. apply Z.max_l. lia.
Qed.

(** A positive integer below 2^53 is a number of its own: finite, positive
    and an integer. *)
Lemma small_integer_number (p : positive) :
  (Zpos p < 2 ^ 53)%Z ->
  Number_isInteger (binary_round prec emax false p 0) = true
  /\ gt_zero (binary_round prec emax false p 0) = true.
Proof.
  intros H. apply digits2_pos_bound in H.
  unfold binary_round, shl_align. rewrite Z.add_0_r, Z.sub_0_r.
  rewrite fexp_small by lia.
  destruct (Zpos (digits2_pos p) - 53)%Z as [|k|k] eqn:D; [|lia|].
  - rewrite binary_round_aux_exact.
    + split; reflexivity.
    + rewrite Z.add_0_r, fexp_small by lia. exact D.
    + reflexivity.
  - rewrite binary_round_aux_exact.
    + cbn [Number_isInteger gt_zero]. split; [|reflexivity].
      apply orb_true_iff. right. apply Z.eqb_eq.
      rewrite Zpos_iter_xO. cbn [Z.opp]. apply Z.mod_mul. lia.
    + rewrite digits2_pos_iter, Pos2Z.inj_add.
      replace (Zpos (digits2_pos p) + Zpos k + Zneg k)%Z
        with (Zpos (digits2_pos p)) by lia.
      rewrite fexp_small by lia. exact D.
    + apply Z.leb_le. unfold emax, prec. lia.
Qed.

(** ** Reading the configured identifiers *)

Lemma trimStart_keeps (c : N) (r : jsstring) :
  is_space c = false -> trimStart (c :: r) = c :: r.
Proof. intros H. cbn [trimStart]. rewrite H. reflexivity. Qed.

Lemma trimStart_spaces (n : nat) (s : jsstring) :
  trimStart (repeat 32 n ++ s) = trimStart s.
Proof. induction n as [|n IH]; [reflexivity|]. cbn. exact IH. Qed.

Lemma rev_repeat {A} (x : A) (n : nat) : rev (repeat x n) = repeat x n.
Proof.
  induction n as [|n IH]; [reflexivity|].
  cbn [repeat rev]. rewrite IH. symmetry. apply repeat_cons.
Qed.

Lemma digit_is_digit (d : N) :
  d < 10 ->
  is_digit (48 + d) = true /\ is_space (48 + d) = false
  /\ (48 + d =? 44) = false /\ (48 + d =? 45) = false
  /\ (48 + d =? 43) = false /\ 48 + d - 48 = d.
Proof.
  intros H. unfold is_digit, is_space.
  repeat match goal with
         | |- context [?a <=? ?b] =>
             let E := fresh in
             destruct (N.leb_spec a b) as [E|E]; try lia
         | |- context [?a =? ?b] =>
             let E := fresh in
             destruct (N.eqb_spec a b) as [E|E]; try lia
         end.
  all: repeat split; lia.
Qed.

Lemma take_digits_digit_string (ds : list N) :
  forallb (fun d => d <? 10) ds = true ->
  take_digits (digit_string ds) = (ds, []).
Proof.
  induction ds as [|d ds IH]; [reflexivity|].
  cbn [forallb]. intros H. apply andb_true_iff in H. destruct H as [D H].
  apply N.ltb_lt in D. destruct (digit_is_digit d D) as (A & _ & _ & _ & _ & B).
  cbn [digit_string List.map take_digits]. rewrite A.
  change (List.map (fun d => 48 + d) ds) with (digit_string ds).
  rewrite (IH H), B. reflexivity.
Qed.

Lemma trim_padded (before after : nat) (ds : list N) :
  forallb (fun d => d <? 10) ds = true -> ds <> [] ->
  trim (padded (before, ds, after)) = digit_string ds.
Proof.
  intros F Ne. unfold trim, padded. rewrite trimStart_spaces.
  destruct ds as [|d ds]; [contradiction|].
  assert (is_space (48 + d) = false) as S.
  { cbn [forallb] in F. apply andb_true_iff in F. destruct F as [D _].
    apply N.ltb_lt in D. apply (digit_is_digit d D). }
  cbn [digit_string List.map app]. rewrite (trimStart_keeps _ _ S).
  change (48 + d :: List.map (fun d => 48 + d) ds ++ repeat 32 after)
    with (digit_string (d :: ds) ++ repeat 32 after).
  rewrite rev_app_distr, rev_repeat, trimStart_spaces.
  assert (exists c r, rev (digit_string (d :: ds)) = c :: r
                      /\ is_space c = false) as (c & r & E & Sc).
  { assert (Forall (fun c => is_space c = false) (rev (digit_string (d :: ds))))
      as A.
    { apply Forall_rev. unfold digit_string. apply Forall_map.
      apply Forall_forall. intros x Hx.
      rewrite forallb_forall in F. specialize (F _ Hx).
      apply N.ltb_lt in F. apply (digit_is_digit x F). }
    destruct (rev (digit_string (d :: ds))) as [|c r] eqn:E.
    - apply (f_equal (@List.length N)) in E. rewrite length_rev in E.
      discriminate E.
    - exists c, r. split; [reflexivity|]. exact (Forall_inv A). }
  rewrite E, (trimStart_keeps _ _ Sc), <- E. apply rev_involutive.
Qed.

Lemma comma_free_padded (entry : nat * list N * nat) :
  forallb (fun d => d <? 10) (snd (fst entry)) = true ->
  comma_free (padded entry) = true.
Proof.
  destruct entry as [[before ds] after]. cbn [fst snd]. intros F.
  unfold comma_free, padded. rewrite !forallb_app.
  assert (forall n, forallb (fun c => negb (c =? 44)) (repeat 32 n) = true)
    as R by (intros n; induction n; [reflexivity|exact IHn]).
  rewrite !R. cbn [andb]. rewrite andb_true_r.
  unfold digit_string. apply forallb_forall. intros c Hc.
  apply in_map_iff in Hc. destruct Hc as (d & <- & Hd).
  rewrite forallb_forall in F. specialize (F _ Hd). apply N.ltb_lt in F.
  destruct (digit_is_digit d F) as (_ & _ & C & _). rewrite C. reflexivity.
Qed.

Lemma writes_an_id_inv (ds : list N) :
  writes_an_id ds = true ->
  forallb (fun d => d <? 10) ds = true /\ ds <> []
  /\ exists p, digits_value ds = Npos p /\ (Zpos p < 2 ^ 53)%Z.
Proof.
  unfold writes_an_id. intros H.
  apply andb_true_iff in H. destruct H as [H U].
  apply andb_true_iff in H. destruct H as [F L].
  apply N.ltb_lt in L, U. split; [exact F|]. split.
  - intros ->. cbn in L. lia.
  - destruct (digits_value ds) as [|p]; [lia|]. exists p. split; [reflexivity|].
    change (2 ^ 53)%Z with (Z.of_N (2 ^ 53)). lia.
Qed.

Lemma parseInt10_padded (entry : nat * list N * nat) :
  writes_an_id (snd (fst entry)) = true ->
  parseInt10 (trim (padded entry)) = id_of entry
  /\ Number_isInteger (id_of entry) && gt_zero (id_of entry) = true.
Proof.
  destruct entry as [[before ds] after]. cbn [fst snd]. intros W.
  destruct (writes_an_id_inv _ W) as (F & Ne & p & V & B).
  assert (id_of (before, ds, after) = binary_round prec emax false p 0) as I
    by (unfold id_of; rewrite V; reflexivity).
  split.
  - rewrite (trim_padded _ _ _ F Ne), I. unfold parseInt10.
    destruct ds as [|d ds]; [contradiction|].
    assert (d < 10) as D.
    { cbn [forallb] in F. apply andb_true_iff in F. destruct F as [D _].
      apply N.ltb_lt in D. exact D. }
    destruct (digit_is_digit d D) as (_ & S & _ & M & P & _).
    change (digit_string (d :: ds)) with (48 + d :: digit_string ds) at 1.
    rewrite (trimStart_keeps _ _ S), M, P.
    change (48 + d :: digit_string ds) with (digit_string (d :: ds)).
    rewrite (take_digits_digit_string _ F), V.
    unfold num_of_decimal. cbn [Z.leb Z.compare]. cbn [Z.pow Z.to_pos].
    rewrite Pos.mul_1_r. reflexivity.
  - rewrite I. destruct (small_integer_number p B) as [A C].
    rewrite A, C. reflexivity.
Qed.

Lemma parseIds_pieces (entries : list (nat * list N * nat)) :
  Forall (fun entry => writes_an_id (snd (fst entry)) = true) entries ->
  filter (fun n => Number_isInteger n && gt_zero n)
    (List.map (fun s => parseInt10 (trim s)) (List.map padded entries))
  = List.map id_of entries.
Proof.
  induction 1 as [|entry entries W _ IH]; [reflexivity|].
  destruct (parseInt10_padded _ W) as [P K].
  cbn [List.map filter]. rewrite P, K, IH. reflexivity.
Qed.

(** A list of identifiers written in decimal digits and separated by
    commas, with any number of spaces around each, is read as those
    identifiers, in order, as long as each is a positive integer below
    2^53. *)
Theorem parseIds_reads_decimal_lists (entries : list (nat * list N * nat)) :
  entries <> [] ->
  Forall (fun entry => writes_an_id (snd (fst entry)) = true) entries ->
  BundleAddButton.parseIds (JStr (join 44 (List.map padded entries)))
  = Ok (List.map id_of entries).
Proof.
  intros Ne F. unfold BundleAddButton.parseIds.
  assert (Forall (fun p => comma_free p = true) (List.map padded entries))
    as C.
  { apply Forall_map. eapply Forall_impl; [|exact F].
    intros entry W. apply comma_free_padded.
    exact (proj1 (writes_an_id_inv _ W)). }
  assert (truthy (JStr (join 44 (List.map padded entries))) = true) as T.
  { destruct entries as [|[[before ds] after] rest]; [contradiction|].
    pose proof (Forall_inv F) as W. cbn [fst snd] in W.
    destruct (writes_an_id_inv _ W) as (_ & Nd & _).
    assert (exists c r, padded (before, ds, after) = c :: r) as (c & r & E).
    { unfold padded. destruct before; cbn [repeat app]; eauto.
      destruct ds as [|d ds]; [contradiction|]. cbn. eauto. }
    cbn [List.map]. destruct (List.map padded rest) as [|q qs].
    - cbn [join]. rewrite E. reflexivity.
    - change (join 44 (padded (before, ds, after) :: q :: qs))
        with (padded (before, ds, after) ++ 44 :: join 44 (q :: qs)).
      rewrite E. reflexivity. }
  rewrite T. cbn [negb].
  rewrite split_join; [|destruct entries; [contradiction|discriminate]|exact C].
  rewrite (parseIds_pieces _ F). reflexivity.
Qed.

Lemma parseIds_reads_decimal_lists_witness :
  BundleAddButton.parseIds (JStr (lit "41,  42 ,43"))
  = Ok [num_of_Z 41; num_of_Z 42; num_of_Z 43].
Proof.
  apply (parseIds_reads_decimal_lists
           [(0%nat, [4; 1], 0%nat); (2%nat, [4; 2], 1%nat);
            (0%nat, [4; 3], 0%nat)]);
    [discriminate | repeat constructor].
Defined.

(** ** The items built on a click *)



